(** * bioquery: the backend of app.py (NASA Bio-Query dashboard)

  A shallow embedding of the three backend functions of [app.py]:
  [load_data] (lines 77-86), [search] (lines 89-95) and [get_summary]
  (lines 97-102), together with the Python values they handle, and of
  the script around them: the styling and set-up functions (lines 21-75)
  and [main] (lines 106-180), over the page, the session, the caches and
  the files of one process.

  - Python [str] values are lists of Unicode code points.
  - Python exceptions are identified by their class name.
  - Calls to the two pretrained models are recorded in a call log that is
    threaded through a small state-and-error monad, so that "the model is
    not invoked" is a statement about that log.
  - Scores and tensor entries are finite floating-point numbers; each
    finite float is a rational, so they are carried as [Q]. *)

From Stdlib Require Import QArith.
From stdpp Require Import gmap strings list sorting pretty.

Local Open Scope Z_scope.

(** ** Python values *)

Module Py.

(** A [str] is a sequence of code points. *)
Definition str : Type := list N.

Definition of_string (s : string) : str :=
  map Ascii.N_of_ascii (String.list_ascii_of_string s).

(** [str.isspace] on one code point, the table CPython's
    [_PyUnicode_IsWhitespace] uses: U+0009..U+000D, U+001C..U+0020,
    U+0085, U+00A0, U+1680, U+2000..U+200A, U+2028, U+2029, U+202F,
    U+205F, U+3000. *)
Definition isspace (c : N) : bool :=
  (((9 <=? c) && (c <=? 13)) || ((28 <=? c) && (c <=? 32))
   || (c =? 133) || (c =? 160) || (c =? 5760)
   || ((8192 <=? c) && (c <=? 8202))
   || (c =? 8232) || (c =? 8233) || (c =? 8239) || (c =? 8287)
   || (c =? 12288))%N.

(** [s.split()] without a separator: the maximal runs of non-whitespace
    code points, in order. [word] holds the current run, reversed. *)
Fixpoint split_from (word : str) (s : str) : list str :=
  match s with
  | [] => match word with [] => [] | _ => [reverse word] end
  | c :: s' =>
      if isspace c
      then match word with
           | [] => split_from [] s'
           | _ => reverse word :: split_from [] s'
           end
      else split_from (c :: word) s'
  end.

Definition split (s : str) : list str := split_from [] s.

(** A string of whitespace only (the empty string included). *)
Definition whitespace_only (s : str) : Prop := Forall (λ c, isspace c = true) s.

(** [len(x)] as a Python integer. *)
Definition len {A} (l : list A) : Z := Z.of_nat (length l).

(** [not s] for a [str]: true exactly on the empty string. *)
Definition not_ (s : str) : bool :=
  match s with [] => true | _ => false end.

(** [s[:n]] for a non-negative literal [n]. *)
Definition slice_to (n : nat) (s : str) : str := take n s.

(** An exception, identified by the name of its class. *)
Record exn : Type := Exn { exn_class : string }.

#[global] Instance exn_eq_dec : EqDecision exn.
Proof. solve_decision. Defined.

Definition FileNotFoundError : exn := Exn "FileNotFoundError".
Definition ParserError : exn := Exn "ParserError".
Definition ValueError : exn := Exn "ValueError".
Definition IndexError : exn := Exn "IndexError".
Definition KeyError : exn := Exn "KeyError".

(** The outcome of evaluating an expression: a value or a raised
    exception. *)
Inductive result (A : Type) : Type :=
| Return (a : A)
| Raise (e : exn).
Arguments Return {A} a.
Arguments Raise {A} e.

#[global] Instance result_ret : MRet result := fun A a => Return a.
#[global] Instance result_bind : MBind result := fun A B k r =>
  match r with
  | Return a => k a
  | Raise e => Raise e
  end.

(** [try: body  except cls: handler] with a handler that ignores the
    exception object. Only the named class is caught. *)
Definition try_except {A} (body : result A) (cls : exn) (handler : result A)
  : result A :=
  match body with
  | Return a => Return a
  | Raise e => if decide (e = cls) then handler else Raise e
  end.

(** [l[i]] on a list, for a non-negative literal index. *)
Definition getitem {A} (l : list A) (i : nat) : result A :=
  match l !! i with
  | Some a => Return a
  | None => Raise IndexError
  end.

(** [d[k]] on a dict with string keys. *)
Definition getkey {A} (d : gmap string A) (k : string) : result A :=
  match d !! k with
  | Some a => Return a
  | None => Raise KeyError
  end.

End Py.

Import Py.

(** ** The corpus artifacts and [load_data] *)

Module Corpus.

(** A [pandas.DataFrame]: column names and the rows of cells. *)
Record DataFrame : Type := {
  df_columns : list string;
  df_rows : list (list str)
}.

(** A two-dimensional [numpy.ndarray] of floats, row by row. *)
Record ndarray : Type := { array_rows : list (list Q) }.

(** A two-dimensional [torch.Tensor]. *)
Record Tensor : Type := { tensor_rows : list (list Q) }.

Definition len_df (df : DataFrame) : Z := len (df_rows df).
Definition len_tensor (t : Tensor) : Z := len (tensor_rows t).

(** A file on disk, described by what each reader makes of its bytes:
    [as_csv] is the table [pd.read_csv(..., encoding='latin-1')] parses
    them to ([None] when pandas rejects them), [as_npy] the array
    [np.load] parses them to ([None] when numpy rejects them). *)
Record file : Type := {
  as_csv : option DataFrame;
  as_npy : option ndarray
}.

(** The working directory: file name to file. *)
Abbreviation FileSystem := (gmap string file).

Definition pd_read_csv (fs : FileSystem) (path : string) : result DataFrame :=
  match fs !! path with
  | None => Raise FileNotFoundError
  | Some f =>
      match as_csv f with
      | Some df => Return df
      | None => Raise ParserError
      end
  end.

Definition np_load (fs : FileSystem) (path : string) : result ndarray :=
  match fs !! path with
  | None => Raise FileNotFoundError
  | Some f =>
      match as_npy f with
      | Some a => Return a
      | None => Raise ValueError
      end
  end.

(** [torch.from_numpy]: the tensor has the entries of the array. *)
Definition torch_from_numpy (a : ndarray) : Tensor :=
  {| tensor_rows := array_rows a |}.

(** app.py, lines 78-86. The decorator [st.cache_data] of line 77 keeps
    the first result for later calls; one call is modelled here. *)
Definition load_data (fs : FileSystem)
  : result (option DataFrame * option Tensor) :=
  try_except
    (df ← pd_read_csv fs "publications.csv";
     embeddings ← np_load fs "embeddings.npy";
     let embeddings_tensor := torch_from_numpy embeddings in
     Return (Some df, Some embeddings_tensor))
    FileNotFoundError
    (Return (None, None)).

(** The two exception classes the design document names for a failed
    load. No statement of app.py raises either. *)
Definition CorpusNotFoundError : exn := Exn "CorpusNotFoundError".
Definition CorpusIntegrityError : exn := Exn "CorpusIntegrityError".

(** The two fixed paths. *)
Definition csv_path : string := "publications.csv".
Definition npy_path : string := "embeddings.npy".

End Corpus.

Import Corpus.

(** ** The two pretrained models and the monad of model calls *)

Module Models.

(** One invocation of a model, as the call site wrote it. *)
Inductive call : Type :=
| EncodeCall (sentences : str)
| SummarizeCall (text : str) (max_length min_length : Z) (do_sample : bool).

(** What a backend function can observe and change: the log of model
    invocations so far and the state of the sampling generator. *)
Record world : Type := { calls : list call; rng : N }.

(** A computation reads the world and yields a value or an exception
    together with the world it leaves. *)
Definition M (A : Type) : Type := world → result A * world.

#[global] Instance M_ret : MRet M := fun A a w => (Return a, w).
#[global] Instance M_bind : MBind M := fun A B k m w =>
  match m w with
  | (Return a, w') => k a w'
  | (Raise e, w') => (Raise e, w')
  end.

(** A pure expression that may raise. *)
Definition lift {A} (r : result A) : M A := fun w => (r, w).

(** The value a computation yields and the calls it adds to the log. *)
Definition value_of {A} (m : M A) (w : world) : result A := (m w).1.
Definition calls_after {A} (m : M A) (w : world) : list call := calls (m w).2.

(** A [SentenceTransformer]: a text goes to its embedding vector. *)
Record SentenceTransformer : Type := { encode_fn : str → list Q }.

(** [model.encode(sentences, convert_to_tensor=True)]. *)
Definition encode (model : SentenceTransformer) (sentences : str) : M (list Q) :=
  fun w =>
    (Return (encode_fn model sentences),
     {| calls := calls w ++ [EncodeCall sentences]; rng := rng w |}).

(** A summarization [pipeline]: from the generator state, the text and the
    generation arguments to a list of dicts (or an exception) and the
    generator state it leaves. *)
Record Pipeline : Type := {
  generate : N → str → Z → Z → bool → result (list (gmap string str)) * N
}.

(** [pipe(text, max_length=.., min_length=.., do_sample=..)]. *)
Definition call_pipeline (pipe : Pipeline) (text : str)
    (max_length min_length : Z) (do_sample : bool)
  : M (list (gmap string str)) :=
  fun w =>
    let '(r, g) := generate pipe (rng w) text max_length min_length do_sample in
    (r, {| calls := calls w ++ [SummarizeCall text max_length min_length do_sample];
           rng := g |}).

(** The contract of non-sampling decoding: with [do_sample=False] the
    output does not depend on the generator state. *)
Definition greedy_deterministic (pipe : Pipeline) : Prop :=
  ∀ g1 g2 text max_length min_length,
    (generate pipe g1 text max_length min_length false).1
    = (generate pipe g2 text max_length min_length false).1.

End Models.

Import Models.

(** ** Semantic search *)

Module Search.

(** One hit: the dict with keys [corpus_id] and [score]. *)
Record SearchHit : Type := { corpus_id : nat; score : Q }.

Section SemanticSearch.

(** The similarity of two embedding vectors: the library's [cos_sim],
    the default score function of [semantic_search]. *)
Variable cos_sim : list Q → list Q → Q.

(** Modelled from the spec: the first step of the library function
    [sentence_transformers.util.semantic_search], which is no part of
    app.py. Section 4.2: the similarity between the query vector and every
    row of the embedding matrix, each a hit with the row's position as
    [corpus_id]. [start] is the position of the first row. *)
Fixpoint score_rows (start : nat) (query_embedding : list Q)
    (rows : list (list Q)) : list SearchHit :=
  match rows with
  | [] => []
  | row :: rows' =>
      {| corpus_id := start; score := cos_sim query_embedding row |}
      :: score_rows (S start) query_embedding rows'
  end.

(** Modelled from the spec: the stable sort of section 4.2 ("sorted by
    descending score; ties broken by original row order"), one insertion.
    The hit goes in front of the first hit whose score is not greater, so
    it precedes the hits it ties with. *)
Fixpoint insert_hit (h : SearchHit) (sorted : list SearchHit) : list SearchHit :=
  match sorted with
  | [] => [h]
  | h' :: rest =>
      if Qle_bool (score h') (score h)
      then h :: h' :: rest
      else h' :: insert_hit h rest
  end.

(** Modelled from the spec: the stable sort by descending score, by
    insertion from the last row to the first. *)
Definition sort_hits (hits : list SearchHit) : list SearchHit :=
  foldr insert_hit [] hits.

(** Modelled from the spec: the ranking [semantic_search] computes for one
    query. Section 4.2: the [top_k] highest-scoring rows, sorted by
    descending score with ties in row order, and all rows when [top_k]
    exceeds their number. *)
Definition ranking (query_embedding : list Q) (corpus_embeddings : Tensor)
    (top_k : nat) : list SearchHit :=
  take top_k (sort_hits (score_rows 0 query_embedding
                           (tensor_rows corpus_embeddings))).

(** Modelled from the spec: [semantic_search] itself, the library function
    that line 94 calls. Its result is a list with one ranking per query;
    line 93 encodes one query, and line 95 takes the entry [0]. *)
Definition semantic_search (query_embedding : list Q)
    (corpus_embeddings : Tensor) (top_k : nat) : list (list SearchHit) :=
  [ranking query_embedding corpus_embeddings top_k].

(** app.py, lines 89-95. [top_k] is a number of hits, hence not
    negative. *)
Definition search (query : str) (search_model : SentenceTransformer)
    (embeddings_tensor : Tensor) (top_k : nat) : M (list SearchHit) :=
  if not_ query then mret []
  else
    query_embedding ← encode search_model query;
    let hits := semantic_search query_embedding embeddings_tensor top_k in
    lift (getitem hits 0).

End SemanticSearch.

(** The default of the keyword argument [top_k]. *)
Definition default_top_k : nat := 10.

(** [a] stands before [b] in a ranking: a strictly greater score, or an
    equal score and an earlier corpus row. *)
Definition ranks_before (a b : SearchHit) : Prop :=
  (score b < score a)%Q ∨ ((score a == score b)%Q ∧ (corpus_id a < corpus_id b)%nat).

(** Scores never increase along the list. *)
Definition non_increasing (hits : list SearchHit) : Prop :=
  StronglySorted (λ a b, (score b <= score a)%Q) hits.

End Search.

(** ** Summarization *)

Module Summary.

Definition too_short : str :=
  of_string "The abstract is too short to generate a meaningful summary.".

(** app.py, lines 97-102, for a [text] that is a [str]. *)
Definition get_summary (text : str) (_summarizer : Pipeline) : M str :=
  if not_ text || (len (split text) <? 50)
  then mret too_short
  else
    summary ← call_pipeline _summarizer (slice_to 1024 text) 150 40 false;
    first ← lift (getitem summary 0);
    lift (getkey first "summary_text").

(** The number of words of a text, as [len(text.split())] counts them. *)
Definition word_count (text : str) : Z := len (split text).

End Summary.

Import Search Summary.

(** ** Base64, as [base64.b64encode] writes a byte string *)

Module Base64.

Definition alphabet : str :=
  of_string "ABCDEFGHIJKLMNOPQRSTUVWXYZabcdefghijklmnopqrstuvwxyz0123456789+/".

(** The padding character [=]. *)
Definition pad : N := 61.

(** The character of a six-bit group. *)
Definition digit (bits : N) : N := nth (N.to_nat (N.land bits 63)) alphabet pad.

(** Three bytes go to four characters; a rest of one or two bytes is
    padded to four characters. A byte is a number below 256. *)
Fixpoint b64encode (data : list N) : str :=
  match data with
  | [] => []
  | [a] =>
      [digit (N.shiftr a 2); digit (N.shiftl (N.land a 3) 4); pad; pad]
  | [a; b] =>
      [digit (N.shiftr a 2);
       digit (N.lor (N.shiftl (N.land a 3) 4) (N.shiftr b 4));
       digit (N.shiftl (N.land b 15) 2);
       pad]
  | a :: b :: c :: rest =>
      digit (N.shiftr a 2)
      :: digit (N.lor (N.shiftl (N.land a 3) 4) (N.shiftr b 4))
      :: digit (N.lor (N.shiftl (N.land b 15) 2) (N.shiftr c 6))
      :: digit c
      :: b64encode rest
  end.

(** A character that may occur in the output. *)
Definition is_base64_char (c : N) : bool :=
  (((65 <=? c) && (c <=? 90)) || ((97 <=? c) && (c <=? 122))
   || ((48 <=? c) && (c <=? 57)) || (c =? 43) || (c =? 47) || (c =? 61))%N.

End Base64.

Import Base64.

(** ** The Streamlit script: styling, set-up and [main] *)

Module App.

Definition LookupError : exn := Exn "LookupError".
Definition AttributeError : exn := Exn "AttributeError".

(** What Streamlit raises when a widget is given a key that another
    widget of the same run has ([streamlit.errors]; later releases name
    the class [StreamlitDuplicateElementKey]). *)
Definition DuplicateWidgetID : exn := Exn "DuplicateWidgetID".

(** A value of a table cell: a text, or [NaN] where the row has no entry
    for the column. *)
Inductive cell : Type :=
| Text (s : str)
| NaN.

(** One row of a table, [df.iloc[i]]: the column labels and the entries. *)
Record Series : Type := { index : list string; values : list str }.

(** [df.iloc[i]] for a non-negative [i]. *)
Definition iloc (df : DataFrame) (i : nat) : result Series :=
  match df_rows df !! i with
  | Some row => Return {| index := df_columns df; values := row |}
  | None => Raise IndexError
  end.

(** The position of the first occurrence of a label. *)
Fixpoint position (label : string) (labels : list string) : option nat :=
  match labels with
  | [] => None
  | l :: labels' =>
      if decide (l = label) then Some 0%nat else S <$> position label labels'
  end.

Definition value_at (row : Series) (i : nat) : cell :=
  match values row !! i with
  | Some v => Text v
  | None => NaN
  end.

(** [row[label]]. *)
Definition series_getitem (row : Series) (label : string) : result cell :=
  match position label (index row) with
  | Some i => Return (value_at row i)
  | None => Raise KeyError
  end.

(** [row.get(label, default)]. *)
Definition series_get (row : Series) (label : string) (default : cell) : cell :=
  match position label (index row) with
  | Some i => value_at row i
  | None => default
  end.

(** What a call of [st.*] puts on the page, one constructor per call site
    of app.py, with the values the call site formats into it. *)
Inductive element : Type :=
| StyleSheet (css : str)                       (* line 25 *)
| BackgroundStyle (encoded_string : str)       (* line 51 *)
| BackgroundWarning (file_path : string)       (* line 53 *)
| LoadingSpinner                               (* line 112 *)
| CriticalFilesError                           (* line 120 *)
| SidebarImage (path : string)                 (* line 124 *)
| SidebarHeader                                (* line 125 *)
| SidebarAbout                                 (* line 126 *)
| SidebarRule                                  (* lines 127, 129 *)
| SidebarLoaded (publications : Z)             (* line 128 *)
| SidebarBuiltFor                              (* line 130 *)
| SidebarPlaceDate                             (* line 131 *)
| PageTitle                                    (* line 134 *)
| PageTagline                                  (* line 135 *)
| Blank                                        (* lines 136, 143 *)
| QueryArea                                    (* line 140 *)
| SearchButton                                 (* line 141 *)
| ResultsHeading                               (* line 146 *)
| EnterQueryInfo                               (* line 149 *)
| SearchingSpinner                             (* line 152 *)
| FoundSuccess (results : Z)                   (* line 158 *)
| Expander (title : cell) (paper_score : Q)    (* line 164 *)
| Authors (v : cell)                           (* line 167 *)
| Year (v : cell)                              (* line 169 *)
| AbstractHeading                              (* line 171 *)
| AbstractText (v : cell)                      (* line 172 *)
| SummaryButton (key : str)                    (* line 175 *)
| SummarySpinner                               (* line 176 *)
| SummaryInfo (summary : str)                  (* line 178 *)
| NoResultsWarning.                            (* line 180 *)

(** [st.session_state], with the two keys the script uses. A key is absent
    ([None]) or holds a value; the value of [df] may itself be [None]. *)
Record session : Type := {
  ss_df : option (option DataFrame);
  ss_hits : option (list SearchHit)
}.

(** What the caching decorators of lines 27, 57, 70 and 77 have stored. *)
Record caches : Type := {
  nltk_ready : bool;
  models_cache : option (SentenceTransformer * Pipeline);
  data_cache : option (option DataFrame * option Tensor);
  base64_cache : gmap string str
}.

(** The state a run of the script reads and writes. [widget_keys] are
    the keys given to widgets so far in the current run; [downloads] are
    the packages requested from the NLTK server so far, in order. *)
Record app : Type := {
  models_world : world;
  session_state : session;
  page : list element;
  widget_keys : list str;
  nltk_data : gset string;
  downloads : list string;
  cache : caches
}.

(** The files of the working directory as the script meets them:
    [os.path.exists(path)] and [open(path).read()]. A path may exist and
    still not open (a directory, a file without read permission). *)
Record files : Type := {
  os_path_exists : string → bool;
  open_read : string → result (list N)
}.

(** What a run of the script finds around it. [assets] gives the content
    of a file as [read()] returns it; [open_image] is what showing an
    image file does besides drawing it. *)
Record environment : Type := {
  disk : FileSystem;
  assets : gmap string (list N);
  online : bool;
  hub_encoder : string → result SentenceTransformer;
  hub_pipeline : string → string → result Pipeline;
  open_image : string → result unit
}.

(** What the widgets return in one run of the script. *)
Record interaction : Type := {
  text_area : str;
  search_button : bool;
  summary_button : str → bool
}.

Definition App (A : Type) : Type := app → result A * app.

#[global] Instance App_ret : MRet App := fun A a s => (Return a, s).
#[global] Instance App_bind : MBind App := fun A B k m s =>
  match m s with
  | (Return a, s') => k a s'
  | (Raise e, s') => (Raise e, s')
  end.

Definition set_world (w : world) (s : app) : app :=
  {| models_world := w; session_state := session_state s; page := page s;
     widget_keys := widget_keys s; nltk_data := nltk_data s;
     downloads := downloads s; cache := cache s |}.
Definition set_session (ss : session) (s : app) : app :=
  {| models_world := models_world s; session_state := ss; page := page s;
     widget_keys := widget_keys s; nltk_data := nltk_data s;
     downloads := downloads s; cache := cache s |}.
Definition set_page (p : list element) (s : app) : app :=
  {| models_world := models_world s; session_state := session_state s; page := p;
     widget_keys := widget_keys s; nltk_data := nltk_data s;
     downloads := downloads s; cache := cache s |}.
Definition set_widget_keys (keys : list str) (s : app) : app :=
  {| models_world := models_world s; session_state := session_state s;
     page := page s; widget_keys := keys; nltk_data := nltk_data s;
     downloads := downloads s; cache := cache s |}.
Definition set_nltk_data (d : gset string) (s : app) : app :=
  {| models_world := models_world s; session_state := session_state s;
     page := page s; widget_keys := widget_keys s; nltk_data := d;
     downloads := downloads s; cache := cache s |}.
Definition set_downloads (packages : list string) (s : app) : app :=
  {| models_world := models_world s; session_state := session_state s;
     page := page s; widget_keys := widget_keys s; nltk_data := nltk_data s;
     downloads := packages; cache := cache s |}.
Definition set_cache (c : caches) (s : app) : app :=
  {| models_world := models_world s; session_state := session_state s;
     page := page s; widget_keys := widget_keys s; nltk_data := nltk_data s;
     downloads := downloads s; cache := c |}.

(** A pure expression that may raise. *)
Definition pure {A} (r : result A) : App A := fun s => (r, s).

(** A call of one of the backend functions. *)
Definition backend {A} (m : M A) : App A := fun s =>
  let '(r, w) := m (models_world s) in (r, set_world w s).

(** Reading and writing [st.session_state]. *)
Definition get_session : App session := fun s => (Return (session_state s), s).
Definition put_session (ss : session) : App unit := fun s =>
  (Return (), set_session ss s).

(** A call of [st.*] that writes one element. *)
Definition put (e : element) : App unit := fun s =>
  (Return (), set_page (page s ++ [e]) s).

(** Streamlit starts every run of the script with no widget key taken. *)
Definition new_run : App unit := fun s => (Return (), set_widget_keys [] s).

(** [st.button(label, key=key)] of line 175: a key that a widget of this
    run already has is refused with [DuplicateWidgetID] and nothing is
    written; otherwise the key is taken and the button written. *)
Definition button (key : str) : App unit := fun s =>
  if decide (key ∈ widget_keys s) then (Raise DuplicateWidgetID, s)
  else (Return (),
        set_page (page s ++ [SummaryButton key])
          (set_widget_keys (key :: widget_keys s) s)).

(** [try: body  except cls: handler]. *)
Definition try_except_app {A} (body : App A) (cls : exn) (handler : App A)
  : App A := fun s =>
  match body s with
  | (Return a, s') => (Return a, s')
  | (Raise e, s') => if decide (e = cls) then handler s' else (Raise e, s')
  end.

(** A function under [st.cache_data] or [st.cache_resource]: a stored
    value is returned without running the body; a value the body returns
    is stored; an exception is not. *)
Definition cached {A} (stored : caches → option A)
    (store : A → caches → caches) (body : App A) : App A := fun s =>
  match stored (cache s) with
  | Some v => (Return v, s)
  | None =>
      match body s with
      | (Return v, s') => (Return v, set_cache (store v (cache s')) s')
      | (Raise e, s') => (Raise e, s')
      end
  end.

Fixpoint for_each {A} (l : list A) (body : A → App unit) : App unit :=
  match l with
  | [] => mret ()
  | x :: l' => body x;; for_each l' body
  end.

(** The working directory of the runs considered below: the files of
    [assets], each of which opens and reads. *)
Definition working_directory (env : environment) : files :=
  {| os_path_exists := λ path, bool_decide (is_Some (assets env !! path));
     open_read := λ path,
       match assets env !! path with
       | Some content => Return content
       | None => Raise FileNotFoundError
       end |}.

(** app.py, lines 21-25. *)
Definition local_css (dir : files) (file_name : string) : App unit :=
  if os_path_exists dir file_name
  then css ← pure (open_read dir file_name); put (StyleSheet css)
  else mret ().

(** What line 27 stores for a path. *)
Definition store_base64 (bin_file : string) (v : str) (c : caches) : caches :=
  {| nltk_ready := nltk_ready c; models_cache := models_cache c;
     data_cache := data_cache c;
     base64_cache := <[bin_file := v]> (base64_cache c) |}.

(** app.py, lines 27-32. The cache of line 27 is keyed by the argument. *)
Definition get_base64_of_bin_file (dir : files) (bin_file : string)
  : App str :=
  cached (λ c, base64_cache c !! bin_file) (store_base64 bin_file)
    (data ← pure (open_read dir bin_file);
     mret (b64encode data)).

(** app.py, lines 34-53. *)
Definition set_bg_from_local (dir : files) (file_path : string)
  : App unit :=
  if os_path_exists dir file_path
  then
    encoded_string ← get_base64_of_bin_file dir file_path;
    put (BackgroundStyle encoded_string)
  else put (BackgroundWarning file_path).

(** [nltk.data.find]: the resource is installed, or [LookupError]. *)
Definition nltk_find (resource : string) : App unit := fun s =>
  if decide (resource ∈ nltk_data s) then (Return (), s)
  else (Raise LookupError, s).

(** The resource a package of the NLTK index installs. *)
Definition resource_of (package : string) : gset string :=
  if decide (package = "stopwords") then {[ "corpora/stopwords" ]}
  else if decide (package = "punkt") then {[ "tokenizers/punkt" ]}
  else ∅.

(** [nltk.download]: asks the server for the package, and installs it
    when the server is reachable; it reports a failure by its return
    value, which the script drops. *)
Definition nltk_download (env : environment) (package : string) : App unit :=
  fun s =>
    (Return (),
     set_nltk_data
       (if online env then resource_of package ∪ nltk_data s else nltk_data s)
       (set_downloads (downloads s ++ [package]) s)).

(** app.py, lines 57-67. *)
Definition setup_nltk (env : environment) : App unit :=
  cached (λ c, if nltk_ready c then Some () else None)
    (λ _ c, {| nltk_ready := true; models_cache := models_cache c;
               data_cache := data_cache c; base64_cache := base64_cache c |})
    (try_except_app (nltk_find "corpora/stopwords") LookupError
       (nltk_download env "stopwords");;
     try_except_app (nltk_find "tokenizers/punkt") LookupError
       (nltk_download env "punkt")).

(** app.py, lines 70-75. *)
Definition load_models (env : environment)
  : App (SentenceTransformer * Pipeline) :=
  cached models_cache
    (λ v c, {| nltk_ready := nltk_ready c; models_cache := Some v;
               data_cache := data_cache c; base64_cache := base64_cache c |})
    (search_model ← pure (hub_encoder env "all-MiniLM-L6-v2");
     summarizer ← pure (hub_pipeline env "summarization"
                          "sshleifer/distilbart-cnn-6-6");
     mret (search_model, summarizer)).

(** app.py, lines 77-86: [load_data] under its cache. *)
Definition load_data_cached (env : environment)
  : App (option DataFrame * option Tensor) :=
  cached data_cache
    (λ v c, {| nltk_ready := nltk_ready c; models_cache := models_cache c;
               data_cache := Some v; base64_cache := base64_cache c |})
    (pure (load_data (disk env))).

(** Line 99 on a cell: [NaN] is a float, which is true and has no
    [split]. *)
Definition get_summary_of (text : cell) (_summarizer : Pipeline) : M str :=
  match text with
  | Text s => get_summary s _summarizer
  | NaN => lift (Raise AttributeError)
  end.

(** The key of line 174, [f"summary_{paper_index}"]. *)
Definition summary_key (paper_index : nat) : str :=
  of_string "summary_" ++ of_string (pretty paper_index).

(** The default of [get] in lines 167 and 169. *)
Definition not_available : cell := Text (of_string "N/A").

(** app.py, lines 160-178: the body of the loop over the hits. *)
Definition render_hit (ui : interaction) (df : DataFrame)
    (summarizer_pipeline : Pipeline) (hit : SearchHit) : App unit :=
  let paper_index := corpus_id hit in
  let paper_score := score hit in
  paper_data ← pure (iloc df paper_index);
  title ← pure (series_getitem paper_data "Title");
  put (Expander title paper_score);;
  put (Authors (series_get paper_data "Authors" not_available));;
  put (Year (series_get paper_data "Year" not_available));;
  put AbstractHeading;;
  abstract ← pure (series_getitem paper_data "Abstract");
  put (AbstractText abstract);;
  let summary_button_key := summary_key paper_index in
  button summary_button_key;;
  if summary_button ui summary_button_key
  then
    put SummarySpinner;;
    abstract' ← pure (series_getitem paper_data "Abstract");
    summary ← backend (get_summary_of abstract' summarizer_pipeline);
    put (SummaryInfo summary)
  else mret ().

Section Main.

Variable cos_sim : list Q → list Q → Q.

(** app.py, lines 123-180: what [main] does once both artifacts are
    loaded. *)
Definition dashboard (env : environment) (ui : interaction)
    (search_model : SentenceTransformer) (summarizer_pipeline : Pipeline)
    (df : DataFrame) (embeddings_tensor : Tensor) : App unit :=
  pure (open_image env "Frame 1.png");;
  put (SidebarImage "Frame 1.png");;
  put SidebarHeader;;
  put SidebarAbout;;
  put SidebarRule;;
  put (SidebarLoaded (len_df df));;
  put SidebarRule;;
  put SidebarBuiltFor;;
  put SidebarPlaceDate;;
  put PageTitle;;
  put PageTagline;;
  put Blank;;
  let query := text_area ui in
  put QueryArea;;
  put SearchButton;;
  put Blank;;
  put ResultsHeading;;
  ss ← get_session;
  (if negb (search_button ui) && negb (bool_decide (is_Some (ss_hits ss)))
   then put EnterQueryInfo
   else mret () : App unit);;
  (if search_button ui
   then
     put SearchingSpinner;;
     hits ← backend (search cos_sim query search_model embeddings_tensor
                       default_top_k);
     ss ← get_session;
     put_session {| ss_df := ss_df ss; ss_hits := Some hits |}
   else mret () : App unit);;
  ss ← get_session;
  match ss_hits ss return App unit with
  | Some (hit :: hits) =>
      put (FoundSuccess (len (hit :: hits)));;
      for_each (hit :: hits) (render_hit ui df summarizer_pipeline)
  | Some [] => put NoResultsWarning
  | None => mret ()
  end.

(** One run of the script, line 183: app.py, lines 106-121, and then
    [dashboard]. *)
Definition main (env : environment) (ui : interaction) : App unit :=
  new_run;;
  setup_nltk env;;
  local_css (working_directory env) "style.css";;
  set_bg_from_local (working_directory env) "background.jpg";;
  put LoadingSpinner;;
  '(search_model, summarizer_pipeline) ← load_models env;
  '(df, embeddings_tensor) ← load_data_cached env;
  ss ← get_session;
  (match ss_df ss with
   | None => put_session {| ss_df := Some df; ss_hits := ss_hits ss |}
   | Some _ => mret ()
   end : App unit);;
  match df, embeddings_tensor return App unit with
  | Some df, Some embeddings_tensor =>
      dashboard env ui search_model summarizer_pipeline df embeddings_tensor
  | _, _ => put CriticalFilesError
  end.

End Main.

(** The models and the data a run gets: from the cache when it is filled,
    from the hub and the disk otherwise. *)
Definition models_available (env : environment) (s : app)
  : result (SentenceTransformer * Pipeline) :=
  match models_cache (cache s) with
  | Some v => Return v
  | None =>
      search_model ← hub_encoder env "all-MiniLM-L6-v2";
      summarizer ← hub_pipeline env "summarization" "sshleifer/distilbart-cnn-6-6";
      Return (search_model, summarizer)
  end.

Definition data_available (env : environment) (s : app)
  : result (option DataFrame * option Tensor) :=
  match data_cache (cache s) with
  | Some v => Return v
  | None => load_data (disk env)
  end.

(** The elements lines 25, 51 and 53 write. *)
Definition is_styling (e : element) : bool :=
  match e with
  | StyleSheet _ | BackgroundStyle _ | BackgroundWarning _ => true
  | _ => false
  end.

(** The elements that take input: the query area and the buttons. *)
Definition is_widget (e : element) : bool :=
  match e with
  | QueryArea | SearchButton | SummaryButton _ => true
  | _ => false
  end.

(** The calls of the models that a run adds to the log. *)
Definition calls_of (s : app) : list call := calls (models_world s).
Definition hits_of (s : app) : option (list SearchHit) :=
  ss_hits (session_state s).

(** [s'] comes after [s] with only calls satisfying [P] added to the log. *)
Definition log_grows (P : call → bool) (s s' : app) : Prop :=
  ∃ extra, calls_of s' = calls_of s ++ extra ∧ Forall (λ c, P c = true) extra.

(** A relation between the state before and the state after that holds
    of every step which leaves the call log and the stored hits alone. *)
Class Blind (R : app → app → Prop) : Prop := {
  blind_refl : ∀ s, R s s;
  blind_trans : ∀ s1 s2 s3, R s1 s2 → R s2 s3 → R s1 s3;
  blind_page : ∀ s p, R s (set_page p s);
  blind_keys : ∀ s keys, R s (set_widget_keys keys s);
  blind_cache : ∀ s c, R s (set_cache c s);
  blind_nltk : ∀ s d, R s (set_nltk_data d s);
  blind_downloads : ∀ s packages, R s (set_downloads packages s);
  blind_df : ∀ s df,
    R s (set_session {| ss_df := df; ss_hits := ss_hits (session_state s) |} s)
}.

(** The hits in the session are the same before and after. *)
Definition keeps_hits (s s' : app) : Prop := hits_of s' = hits_of s.

(** The elements lines 124-146 write, whatever the user does. *)
Definition page_frame (df : DataFrame) : list element :=
  [SidebarImage "Frame 1.png"; SidebarHeader; SidebarAbout; SidebarRule;
   SidebarLoaded (len_df df); SidebarRule; SidebarBuiltFor; SidebarPlaceDate;
   PageTitle; PageTagline; Blank; QueryArea; SearchButton; Blank;
   ResultsHeading].

(** The elements lines 164-175 write for a row of the table. *)
Definition paper_card (row : Series) (title abstract : cell) (hit : SearchHit)
  : list element :=
  [Expander title (score hit);
   Authors (series_get row "Authors" not_available);
   Year (series_get row "Year" not_available);
   AbstractHeading;
   AbstractText abstract;
   SummaryButton (summary_key (corpus_id hit))].

(** The card of a hit, over the table the hit is looked up in: empty
    where a lookup of lines 162-172 fails. *)
Definition card_of (df : DataFrame) (hit : SearchHit) : list element :=
  match iloc df (corpus_id hit) with
  | Return row =>
      match series_getitem row "Title", series_getitem row "Abstract" with
      | Return title, Return abstract => paper_card row title abstract hit
      | _, _ => []
      end
  | Raise _ => []
  end.

(** The packages [setup_nltk] has to ask for, given what is installed:
    lines 60-63 for the stop words, lines 64-67 for the tokenizer. *)
Definition missing_packages (installed : gset string) : list string :=
  (if decide ("corpora/stopwords" ∈ installed) then [] else ["stopwords"])
  ++ (if decide ("tokenizers/punkt" ∈ installed) then [] else ["punkt"]).

(** Every state a computation can leave is related to the one it starts
    from. *)
Definition steps {A} (R : app → app → Prop) (m : App A) : Prop :=
  ∀ s, R s (m s).2.

Definition is_encode_call (c : call) : bool :=
  match c with EncodeCall _ => true | SummarizeCall _ _ _ _ => false end.

Definition is_summarize_call (c : call) : bool :=
  match c with EncodeCall _ => false | SummarizeCall _ _ _ _ => true end.

End App.

Import App.

(** ** Concrete inputs *)

Module Fixtures.

(** A table of two publications. *)
Definition two_papers : DataFrame :=
  {| df_columns := ["Title"; "Abstract"];
     df_rows := [[of_string "A"; of_string "bone loss in orbit"];
                 [of_string "B"; of_string "radiation and bone density"]] |}.

(** An embedding matrix of three rows. *)
Definition three_vectors : ndarray :=
  {| array_rows := [[1; 0]; [0; 1]; [1 # 2; 1 # 2]]%Q |}.

Definition csv_file (df : DataFrame) : file :=
  {| as_csv := Some df; as_npy := None |}.
Definition npy_file (a : ndarray) : file :=
  {| as_csv := None; as_npy := Some a |}.

(** Both artifacts on disk, with two table rows and three embedding rows. *)
Definition mismatched_disk : FileSystem :=
  <[csv_path := csv_file two_papers]> (<[npy_path := npy_file three_vectors]> ∅).

(** Neither artifact on disk. *)
Definition empty_disk : FileSystem := ∅.

(** The dot product, as a similarity of two vectors. *)
Definition dot (a b : list Q) : Q := foldr Qplus 0%Q (zip_with Qmult a b).

(** An encoder that looks only at the length of the text. *)
Definition length_encoder : SentenceTransformer :=
  {| encode_fn := λ s, [inject_Z (len s); 1%Q] |}.

(** A corpus with a tie between its first and third row. *)
Definition tied_corpus : Tensor :=
  {| tensor_rows := [[1; 0]; [0; 3]; [1; 0]; [0; 0]]%Q |}.

Definition start : world := {| calls := []; rng := 0 |}.

(** A pipeline that echoes the head of its input; when sampling it also
    draws from the generator. *)
Definition echo_pipeline : Pipeline :=
  {| generate := λ g text max_length min_length do_sample,
       if do_sample
       then (Return [{[ "summary_text" := g :: take (Z.to_nat min_length) text ]}],
             (g + 1)%N)
       else (Return [{[ "summary_text" := take (Z.to_nat min_length) text ]}], g) |}.

Definition fifty_words : str := concat (replicate 50 (of_string "cell ")).
Definition forty_words : str := concat (replicate 40 (of_string "cell ")).
Definition blank_page : str := replicate 2000 32%N.

End Fixtures.
Import Fixtures.

(** ** Concrete inputs for the script *)

Module AppFixtures.

Definition two_vectors : ndarray := {| array_rows := [[1; 0]; [0; 1]]%Q |}.

(** Both artifacts on disk, two rows each. *)
Definition good_disk : FileSystem :=
  <[csv_path := csv_file two_papers]> (<[npy_path := npy_file two_vectors]> ∅).

(** A directory with both artifacts and a style sheet, no background
    image; the model hub answers with the two toy models. *)
Definition studio (d : FileSystem) : environment :=
  {| disk := d;
     assets := {[ "style.css" := of_string "body { color: white; }" ]};
     online := true;
     hub_encoder := λ _, Return length_encoder;
     hub_pipeline := λ _ _, Return echo_pipeline;
     open_image := λ _, Return () |}.

(** The state of a fresh process and session. *)
Definition fresh : app :=
  {| models_world := start;
     session_state := {| ss_df := None; ss_hits := None |};
     page := [];
     widget_keys := [];
     nltk_data := ∅;
     downloads := [];
     cache := {| nltk_ready := false; models_cache := None; data_cache := None;
                 base64_cache := ∅ |} |}.

Definition idle : interaction :=
  {| text_area := []; search_button := false; summary_button := λ _, false |}.

Definition click_search (query : str) : interaction :=
  {| text_area := query; search_button := true; summary_button := λ _, false |}.

Definition click_summary (key : str) : interaction :=
  {| text_area := []; search_button := false;
     summary_button := λ k, bool_decide (k = key) |}.

(** A session that holds hits from an earlier search. *)
Definition with_hits (hits : list SearchHit) (s : app) : app :=
  set_session {| ss_df := ss_df (session_state s); ss_hits := Some hits |} s.

(** A pipeline whose model fails on every input. *)
Definition broken_pipeline : Pipeline :=
  {| generate := λ g _ _ _ _, (Raise (Exn "RuntimeError"), g) |}.

(** A text of fifty words behind 1024 spaces. *)
Definition margin : str := replicate 1024 32%N.

(** A model hub that cannot be reached. *)
Definition offline_studio : environment :=
  {| disk := good_disk;
     assets := ∅;
     online := false;
     hub_encoder := λ _, Raise (Exn "OSError");
     hub_pipeline := λ _ _, Raise (Exn "OSError");
     open_image := λ _, Return () |}.

(** The state a first run leaves when both artifacts are missing, at
    the start of the next run. *)
Definition after_failed_start : app :=
  set_page [] (main dot (studio empty_disk) idle fresh).2.

(** Hits of an earlier search over the three embedding rows of
    [mismatched_disk]. *)
Definition three_hits : list SearchHit :=
  [{| corpus_id := 0; score := 2 |}; {| corpus_id := 2; score := 3 # 2 |};
   {| corpus_id := 1; score := 1 |}]%Q.

(** What [search] returns for the query [ab] over the two rows of
    [good_disk], with the toy encoder and the dot product. *)
Definition ab_hits : list SearchHit :=
  [{| corpus_id := 0; score := 2 |}; {| corpus_id := 1; score := 1 |}]%Q.

Definition good_tensor : Tensor := torch_from_numpy two_vectors.
Definition toy_models : SentenceTransformer * Pipeline :=
  (length_encoder, echo_pipeline).

(** The second paper of [two_papers], as a hit and as a row. *)
Definition second_hit : SearchHit := {| corpus_id := 1; score := 2 |}.
Definition second_row : Series :=
  {| index := ["Title"; "Abstract"];
     values := [of_string "B"; of_string "radiation and bone density"] |}.

Definition two_hits : list SearchHit :=
  [{| corpus_id := 1; score := 2 |}; {| corpus_id := 0; score := 1 |}]%Q.

(** A directory with a background image of two bytes. *)
Definition gallery : environment :=
  {| disk := good_disk;
     assets := {[ "background.jpg" := [104; 105]%N ]};
     online := true;
     hub_encoder := λ _, Return length_encoder;
     hub_pipeline := λ _ _, Return echo_pipeline;
     open_image := λ _, Return () |}.

(** A directory in which every path exists and none opens. *)
Definition locked_directory : files :=
  {| os_path_exists := λ _, true;
     open_read := λ _, Raise (Exn "PermissionError") |}.

(** A fresh process with the stop words installed and the tokenizer
    missing. *)
Definition stopwords_installed : app :=
  set_nltk_data {[ "corpora/stopwords" ]} fresh.

End AppFixtures.
Import AppFixtures.

(** * Properties *)

(** ** Loading the corpus *)

Section LoadData.

Implicit Types (fs : FileSystem) (df : DataFrame) (a : ndarray).

Lemma pd_read_csv_Return fs path df :
  pd_read_csv fs path = Return df ↔ ∃ f, fs !! path = Some f ∧ as_csv f = Some df.
Proof.
  unfold pd_read_csv. split.
  - destruct (fs !! path) as [f|]; [|discriminate].
    destruct (as_csv f) as [df'|] eqn:E; [|discriminate].
    intros [= <-]. eauto.
  - intros (f & -> & ->). reflexivity.
Qed.

Lemma np_load_Return fs path a :
  np_load fs path = Return a ↔ ∃ f, fs !! path = Some f ∧ as_npy f = Some a.
Proof.
  unfold np_load. split.
  - destruct (fs !! path) as [f|]; [|discriminate].
    destruct (as_npy f) as [a'|] eqn:E; [|discriminate].
    intros [= <-]. eauto.
  - intros (f & -> & ->). reflexivity.
Qed.

(** The four ways [load_data] can end, by what is on disk. *)
Lemma load_data_cases fs :
  (fs !! csv_path = None ∧ load_data fs = Return (None, None))
  ∨ (∃ f, fs !! csv_path = Some f ∧ as_csv f = None
          ∧ load_data fs = Raise ParserError)
  ∨ (∃ df, pd_read_csv fs csv_path = Return df ∧ fs !! npy_path = None
           ∧ load_data fs = Return (None, None))
  ∨ (∃ df f, pd_read_csv fs csv_path = Return df ∧ fs !! npy_path = Some f
             ∧ as_npy f = None ∧ load_data fs = Raise ValueError)
  ∨ (∃ df a, pd_read_csv fs csv_path = Return df
             ∧ np_load fs npy_path = Return a
             ∧ load_data fs = Return (Some df, Some (torch_from_numpy a))).
Proof.
  unfold load_data, pd_read_csv, np_load, csv_path, npy_path.
  destruct (fs !! "publications.csv") as [f|] eqn:Ecsv; [|by left].
  destruct (as_csv f) as [df|] eqn:Edf.
  2:{ right; left. exists f. done. }
  destruct (fs !! "embeddings.npy") as [g|] eqn:Enpy.
  2:{ right; right; left. exists df. done. }
  destruct (as_npy g) as [a|] eqn:Ea.
  - do 4 right. exists df, a. done.
  - do 3 right; left. exists df, g. done.
Qed.

(** C1, as the claim states it, fails: with a table of two rows and an
    embedding matrix of three rows on disk, [load_data] raises no
    [CorpusIntegrityError]; it returns both artifacts. *)
Lemma load_data_accepts_mismatched_rows :
  len_df two_papers = 2 ∧ len_tensor (torch_from_numpy three_vectors) = 3
  ∧ load_data mismatched_disk
    = Return (Some two_papers, Some (torch_from_numpy three_vectors))
  ∧ load_data mismatched_disk ≠ Raise CorpusIntegrityError.
Proof.
  assert (load_data mismatched_disk
          = Return (Some two_papers, Some (torch_from_numpy three_vectors))) as E
    by (vm_compute; reflexivity).
  split_and!; [reflexivity | reflexivity | exact E | rewrite E; discriminate].
Qed.

(** C1, amended: [load_data] compares no row counts. Whenever both files
    are present and readable it returns the table as read and a tensor
    with exactly the rows of the array (nothing truncated, nothing
    padded), whether or not the two row counts agree, and it raises no
    [CorpusIntegrityError] on any disk. *)
Theorem load_data_no_row_count_check fs df a :
  pd_read_csv fs csv_path = Return df →
  np_load fs npy_path = Return a →
  ∃ t, load_data fs = Return (Some df, Some t)
       ∧ tensor_rows t = array_rows a
       ∧ len_tensor t = len (array_rows a)
       ∧ load_data fs ≠ Raise CorpusIntegrityError.
Proof.
  intros Hcsv Hnpy. exists (torch_from_numpy a).
  assert (load_data fs = Return (Some df, Some (torch_from_numpy a))) as E.
  { unfold load_data. fold csv_path npy_path. rewrite Hcsv. simpl.
    rewrite Hnpy. reflexivity. }
  split_and!; [exact E | reflexivity | reflexivity | rewrite E; discriminate].
Qed.

Lemma load_data_no_row_count_check_witness :
  ∃ t, load_data mismatched_disk = Return (Some two_papers, Some t)
       ∧ tensor_rows t = array_rows three_vectors
       ∧ len_tensor t = len (array_rows three_vectors)
       ∧ load_data mismatched_disk ≠ Raise CorpusIntegrityError.
Proof.
  apply (load_data_no_row_count_check mismatched_disk two_papers three_vectors);
    vm_compute; reflexivity.
Defined.



(** C10: [load_data] never returns a pair with exactly one component
    loaded. Whatever is on disk, it returns both the table and the tensor
    (and then both files are present), or it returns [(None, None)] (and
    then a file is missing), or, when a present file is unreadable, it
    returns no pair at all. When every present file is readable it
    returns. *)
Theorem load_data_all_or_nothing fs :
  match load_data fs with
  | Return (Some df, Some t) =>
      is_Some (fs !! csv_path) ∧ is_Some (fs !! npy_path)
  | Return (None, None) => fs !! csv_path = None ∨ fs !! npy_path = None
  | Return (Some _, None) | Return (None, Some _) => False
  | Raise e =>
      ∃ f, (fs !! csv_path = Some f ∧ as_csv f = None)
           ∨ (fs !! npy_path = Some f ∧ as_npy f = None)
  end.
Proof.
  destruct (load_data_cases fs) as
    [[Hcsv E] | [(f & Hf & Hbad & E) | [(df & Hdf & Hnpy & E)
     | [(df & f & Hdf & Hf & Hbad & E) | (df & a & Hdf & Ha & E)]]]];
    rewrite E; eauto.
  apply pd_read_csv_Return in Hdf as (f1 & -> & _).
  apply np_load_Return in Ha as (f2 & -> & _). split; eauto.
Qed.

End LoadData.

(** ** Summarization *)

Section GetSummary.

Implicit Types (text : str) (pipe : Pipeline) (w : world).

(** A text of whitespace only has no words. *)
Lemma split_whitespace_only text : whitespace_only text → split text = [].
Proof.
  unfold split. induction 1 as [|c s Hc _ IH]; simpl; [reflexivity|].
  rewrite Hc. exact IH.
Qed.

(** The gate of line 99 is closed exactly on the texts of at least 50
    words; such a text is not empty. *)
Lemma gate_open_iff text :
  not_ text || (len (split text) <? 50) = false ↔ 50 ≤ word_count text.
Proof.
  unfold word_count. rewrite orb_false_iff, Z.ltb_ge. split; [tauto|].
  intros H. split; [|exact H].
  destruct text; [|reflexivity]. vm_compute in H. contradiction.
Qed.

Lemma gate_closed text :
  text = [] ∨ word_count text < 50 →
  not_ text || (len (split text) <? 50) = true.
Proof.
  intros [-> | H]; [reflexivity|].
  apply orb_true_iff. right. apply Z.ltb_lt. exact H.
Qed.

(** What [get_summary] does once the gate is passed, in one step. *)
Lemma get_summary_long text pipe w :
  50 ≤ word_count text →
  get_summary text pipe w
  = let out := generate pipe (rng w) (slice_to 1024 text) 150 40 false in
    (summary ← out.1; first ← getitem summary 0; getkey first "summary_text",
     {| calls := calls w ++ [SummarizeCall (slice_to 1024 text) 150 40 false];
        rng := out.2 |}).
Proof.
  intros H. apply gate_open_iff in H. unfold get_summary. rewrite H.
  generalize (slice_to 1024 text). intros prompt.
  unfold mbind, M_bind, call_pipeline, lift. simpl.
  destruct (generate pipe (rng w) prompt 150 40 false)
    as [[summary|e] g]; simpl; [|reflexivity].
  destruct (getitem summary 0) as [first|e]; reflexivity.
Qed.

(** C3: on the empty text and on every text of fewer than 50 words,
    [get_summary] returns the fixed message and leaves the world as it
    found it: no call of the summarization model is logged. *)
Theorem get_summary_too_short text pipe w :
  text = [] ∨ word_count text < 50 →
  get_summary text pipe w = (Return too_short, w)
  ∧ too_short
    = of_string "The abstract is too short to generate a meaningful summary."
  ∧ calls_after (get_summary text pipe) w = calls w.
Proof.
  intros H. apply gate_closed in H.
  unfold calls_after, get_summary. rewrite H. done.
Qed.

Lemma get_summary_too_short_witness :
  get_summary forty_words echo_pipeline start = (Return too_short, start)
  ∧ too_short
    = of_string "The abstract is too short to generate a meaningful summary."
  ∧ calls_after (get_summary forty_words echo_pipeline) start = calls start.
Proof.
  apply (get_summary_too_short forty_words echo_pipeline start).
  right. vm_compute. reflexivity.
Defined.

(** C6: on a text of at least 50 words (hence not empty), [get_summary]
    invokes the model exactly once, on the first 1024 characters of the
    text, with [max_length=150], [min_length=40] and [do_sample=False];
    what it returns is the [summary_text] of the first dict of that
    call's output. *)
Theorem get_summary_truncates_and_bounds text pipe w :
  50 ≤ word_count text →
  text ≠ []
  ∧ calls_after (get_summary text pipe) w
    = calls w ++ [SummarizeCall (take 1024 text) 150 40 false]
  ∧ (length (take 1024 text) ≤ 1024)%nat
  ∧ take 1024 text `prefix_of` text
  ∧ value_of (get_summary text pipe) w
    = (summary ← (generate pipe (rng w) (take 1024 text) 150 40 false).1;
       first ← getitem summary 0;
       getkey first "summary_text").
Proof.
  intros H. unfold calls_after, value_of.
  rewrite (get_summary_long _ _ _ H). unfold slice_to.
  cbv zeta. cbn [fst snd calls].
  split_and!; try reflexivity.
  - intros ->. vm_compute in H. contradiction.
  - rewrite length_take. lia.
  - exists (drop 1024 text). symmetry. apply take_drop.
Qed.

Lemma get_summary_truncates_and_bounds_witness :
  fifty_words ≠ []
  ∧ calls_after (get_summary fifty_words echo_pipeline) start
    = calls start ++ [SummarizeCall (take 1024 fifty_words) 150 40 false]
  ∧ (length (take 1024 fifty_words) ≤ 1024)%nat
  ∧ take 1024 fifty_words `prefix_of` fifty_words
  ∧ value_of (get_summary fifty_words echo_pipeline) start
    = (summary ← (generate echo_pipeline (rng start) (take 1024 fifty_words)
                    150 40 false).1;
       first ← getitem summary 0;
       getkey first "summary_text").
Proof.
  apply (get_summary_truncates_and_bounds fifty_words echo_pipeline start).
  vm_compute. discriminate.
Defined.

(** C8: with a model whose non-sampling decoding does not depend on the
    generator state, two calls of [get_summary] on the same text of at
    least 50 words return the same string (or raise the same exception),
    whatever the world each call starts in. *)
Theorem get_summary_deterministic text pipe w1 w2 :
  greedy_deterministic pipe →
  50 ≤ word_count text →
  value_of (get_summary text pipe) w1 = value_of (get_summary text pipe) w2.
Proof.
  intros Hpipe H. unfold value_of.
  rewrite !(get_summary_long _ _ _ H). cbv zeta. cbn [fst].
  rewrite (Hpipe (rng w1) (rng w2)). reflexivity.
Qed.

Lemma get_summary_deterministic_witness :
  value_of (get_summary fifty_words echo_pipeline) start
  = value_of (get_summary fifty_words echo_pipeline)
      {| calls := [EncodeCall fifty_words]; rng := 7 |}.
Proof.
  apply (get_summary_deterministic fifty_words echo_pipeline).
  - intros g1 g2 text max_length min_length. reflexivity.
  - vm_compute. discriminate.
Defined.

(** C9: on a text of whitespace only, of any length, the word count is
    zero, so [get_summary] returns the fixed message and logs no call of
    the model. *)
Theorem get_summary_whitespace_only text pipe w :
  whitespace_only text →
  word_count text = 0
  ∧ get_summary text pipe w = (Return too_short, w)
  ∧ calls_after (get_summary text pipe) w = calls w.
Proof.
  intros H. apply split_whitespace_only in H.
  unfold calls_after, get_summary, word_count. rewrite H. simpl.
  rewrite orb_true_r. done.
Qed.

Lemma get_summary_whitespace_only_witness :
  (1024 < length blank_page)%nat
  ∧ word_count blank_page = 0
  ∧ get_summary blank_page echo_pipeline start = (Return too_short, start)
  ∧ calls_after (get_summary blank_page echo_pipeline) start = calls start.
Proof.
  split; [vm_compute; lia|].
  apply (get_summary_whitespace_only blank_page echo_pipeline start).
  apply (bool_decide_unpack _). vm_compute. exact I.
Defined.

End GetSummary.

(** ** Semantic search *)

Section SearchFacts.

Variable cos_sim : list Q → list Q → Q.

Implicit Types (h : SearchHit) (hits : list SearchHit) (query : str)
  (model : SentenceTransformer) (corpus : Tensor) (w : world).

Lemma ranks_before_score a b : ranks_before a b → (score b <= score a)%Q.
Proof. intros [Hlt | [Heq _]]; [apply Qlt_le_weak, Hlt | rewrite Heq; apply Qle_refl]. Qed.

Lemma ranks_before_intro a b :
  (score b <= score a)%Q → (corpus_id a < corpus_id b)%nat → ranks_before a b.
Proof.
  intros Hle Hid. destruct (Qlt_le_dec (score b) (score a)) as [Hlt | Hge].
  - left. exact Hlt.
  - right. split; [apply Qle_antisym; assumption | exact Hid].
Qed.

Lemma insert_hit_Permutation h hits : insert_hit h hits ≡ₚ h :: hits.
Proof.
  induction hits as [|h' rest IH]; simpl; [reflexivity|].
  destruct (Qle_bool (score h') (score h)); [reflexivity|].
  rewrite IH. apply Permutation_swap.
Qed.

Lemma sort_hits_Permutation hits : sort_hits hits ≡ₚ hits.
Proof.
  induction hits as [|h rest IH]; simpl; [reflexivity|].
  rewrite insert_hit_Permutation. by rewrite IH.
Qed.

(** Inserting a hit that comes from an earlier row than all the hits of a
    ranking keeps it a ranking. *)
Lemma insert_hit_ranked h hits :
  StronglySorted ranks_before hits →
  Forall (λ h', (corpus_id h < corpus_id h')%nat) hits →
  StronglySorted ranks_before (insert_hit h hits).
Proof.
  induction 1 as [|h' rest Hrest IH Hall]; intros Hids; simpl.
  - repeat constructor.
  - apply Forall_cons in Hids as [Hid Hids].
    destruct (Qle_bool (score h') (score h)) eqn:Hcmp.
    + apply Qle_bool_iff in Hcmp.
      constructor; [by constructor|].
      constructor; [by apply ranks_before_intro|].
      assert (Forall (λ z, ranks_before h' z ∧ (corpus_id h < corpus_id z)%nat)
                rest) as Hboth by (apply Forall_and; done).
      eapply Forall_impl; [exact Hboth|].
      intros z [Hz Hidz]. simpl in *. apply ranks_before_intro; [|exact Hidz].
      apply ranks_before_score in Hz. eapply Qle_trans; eassumption.
    + constructor; [by apply IH|].
      rewrite insert_hit_Permutation. constructor; [|exact Hall].
      left. apply Qnot_le_lt. intros Hle.
      apply Qle_bool_iff in Hle. congruence.
Qed.

Lemma score_rows_ids start q rows :
  Forall (λ h, (start ≤ corpus_id h)%nat) (score_rows cos_sim start q rows).
Proof.
  revert start. induction rows as [|row rows IH]; intros start; simpl;
    constructor; [simpl; lia|].
  eapply Forall_impl; [apply IH|]. simpl. intros; lia.
Qed.

Lemma sort_score_rows_ranked start q rows :
  StronglySorted ranks_before (sort_hits (score_rows cos_sim start q rows)).
Proof.
  revert start. induction rows as [|row rows IH]; intros start; simpl.
  - constructor.
  - apply insert_hit_ranked; [apply IH|].
    rewrite sort_hits_Permutation.
    eapply Forall_impl; [apply score_rows_ids|]. simpl. intros; lia.
Qed.

Lemma score_rows_lookup start q rows i :
  score_rows cos_sim start q rows !! i
  = (λ row, {| corpus_id := start + i; score := cos_sim q row |}) <$> rows !! i.
Proof.
  revert start i. induction rows as [|row rows IH]; intros start [|i]; simpl;
    try reflexivity.
  - by rewrite Nat.add_0_r.
  - rewrite IH. by rewrite Nat.add_succ_r.
Qed.

Lemma length_score_rows start q rows :
  length (score_rows cos_sim start q rows) = length rows.
Proof. revert start. induction rows; intros; simpl; [done | by f_equal]. Qed.

(** A hit of the scored corpus names a row and carries that row's
    similarity to the query. *)
Lemma score_rows_elem q rows h :
  h ∈ score_rows cos_sim 0 q rows →
  ∃ row, rows !! corpus_id h = Some row ∧ score h = cos_sim q row.
Proof.
  intros [i Hi]%list_elem_of_lookup. rewrite score_rows_lookup in Hi.
  destruct (rows !! i) as [row|] eqn:Hrow; [|discriminate].
  injection Hi as <-. simpl. eauto.
Qed.

Lemma StronglySorted_take {A} (R : relation A) n (l : list A) :
  StronglySorted R l → StronglySorted R (take n l).
Proof.
  intros H. revert n. induction H as [|x l Hl IH Hx]; intros [|n]; simpl;
    constructor; [apply IH | by apply Forall_take].
Qed.

Lemma StronglySorted_lookup {A} (R : relation A) (l : list A) i j a b :
  StronglySorted R l → (i < j)%nat → l !! i = Some a → l !! j = Some b → R a b.
Proof.
  intros H. revert i j. induction H as [|x l Hl IH Hx]; intros i j Hij Hi Hj.
  - discriminate.
  - destruct j as [|j]; [lia|]. destruct i as [|i]; simpl in *.
    + injection Hi as <-. rewrite Forall_forall in Hx. apply Hx.
      eapply list_elem_of_lookup_2, Hj.
    + apply (IH i j); [lia | done | done].
Qed.

(** A non-empty query is encoded once and ranked; the index [0] into the
    result of [semantic_search] is always in range. *)
Lemma search_nonempty query model corpus top_k w :
  query ≠ [] →
  search cos_sim query model corpus top_k w
  = (Return (ranking cos_sim (encode_fn model query) corpus top_k),
     {| calls := calls w ++ [EncodeCall query]; rng := rng w |}).
Proof.
  intros H. unfold search. destruct query as [|c query]; [done|]. reflexivity.
Qed.

End SearchFacts.

Section SearchClaims.

Variable cos_sim : list Q → list Q → Q.

Implicit Types (query : str) (model : SentenceTransformer) (corpus : Tensor)
  (w : world).



(** C5: on a non-empty query [search] invokes the encoder once and
    returns the first [top_k] hits (all of them when there are fewer
    rows) of the one arrangement of all scored corpus rows in which a
    hit with a greater score, and of two hits with equal scores the one
    from the earlier row, comes first: every row left out stands after
    every hit returned, also where the cut falls between equal scores.
    So the list has at most [top_k] hits, each names a corpus row and
    carries that row's similarity to the encoded query, scores never
    increase along it, ties are in row order, and the list is the same
    in every world the call starts from. *)
Theorem search_ranked query model corpus top_k w :
  query ≠ [] →
  ∃ hits,
    value_of (search cos_sim query model corpus top_k) w = Return hits
    ∧ calls_after (search cos_sim query model corpus top_k) w
      = calls w ++ [EncodeCall query]
    ∧ length hits = (top_k `min` length (tensor_rows corpus))%nat
    ∧ (∃ rest,
         hits ++ rest
         ≡ₚ score_rows cos_sim 0 (encode_fn model query) (tensor_rows corpus)
         ∧ StronglySorted ranks_before (hits ++ rest))
    ∧ (length hits ≤ top_k)%nat
    ∧ non_increasing hits
    ∧ (∀ i j a b, (i < j)%nat → hits !! i = Some a → hits !! j = Some b →
         (score b <= score a)%Q
         ∧ ((score a == score b)%Q → (corpus_id a < corpus_id b)%nat))
    ∧ Forall (λ h, ∃ row, tensor_rows corpus !! corpus_id h = Some row
                          ∧ score h = cos_sim (encode_fn model query) row) hits
    ∧ ∀ w', value_of (search cos_sim query model corpus top_k) w' = Return hits.
Proof.
  intros H. exists (ranking cos_sim (encode_fn model query) corpus top_k).
  assert (StronglySorted ranks_before
            (ranking cos_sim (encode_fn model query) corpus top_k)) as Hranked
    by apply StronglySorted_take, sort_score_rows_ranked.
  split_and!.
  - unfold value_of. by rewrite search_nonempty.
  - unfold calls_after. by rewrite search_nonempty.
  - unfold ranking. rewrite length_take, sort_hits_Permutation.
    by rewrite length_score_rows.
  - exists (drop top_k (sort_hits (score_rows cos_sim 0 (encode_fn model query)
                                    (tensor_rows corpus)))).
    unfold ranking. rewrite take_drop. split.
    + apply sort_hits_Permutation.
    + apply sort_score_rows_ranked.
  - unfold ranking. rewrite length_take. lia.
  - unfold non_increasing. induction Hranked as [|a l Hl IH Ha];
      constructor; [exact IH|].
    eapply Forall_impl; [exact Ha|]. apply ranks_before_score.
  - intros i j a b Hij Hi Hj.
    pose proof (StronglySorted_lookup _ _ _ _ _ _ Hranked Hij Hi Hj) as Hab.
    split; [by apply ranks_before_score|].
    intros Heq. destruct Hab as [Hlt | [_ Hid]]; [|exact Hid].
    rewrite Heq in Hlt. by apply Qlt_irrefl in Hlt.
  - unfold ranking. apply Forall_take. rewrite sort_hits_Permutation.
    apply Forall_forall. intros h Hh. by apply score_rows_elem.
  - intros w'. unfold value_of. by rewrite search_nonempty.
Qed.

(** C7: on a non-empty query, with [top_k] greater than the number of
    corpus rows, [search] raises nothing and returns one hit for every
    row: as many hits as rows, a rearrangement of the scored corpus, so
    every row position occurs among them. *)
Theorem search_top_k_beyond_corpus query model corpus top_k w :
  query ≠ [] →
  (length (tensor_rows corpus) < top_k)%nat →
  ∃ hits,
    search cos_sim query model corpus top_k w
    = (Return hits, {| calls := calls w ++ [EncodeCall query]; rng := rng w |})
    ∧ length hits = length (tensor_rows corpus)
    ∧ hits ≡ₚ score_rows cos_sim 0 (encode_fn model query) (tensor_rows corpus)
    ∧ ∀ i, (i < length (tensor_rows corpus))%nat →
           ∃ h, h ∈ hits ∧ corpus_id h = i.
Proof.
  intros H Hk.
  set (scored := score_rows cos_sim 0 (encode_fn model query) (tensor_rows corpus)).
  assert (ranking cos_sim (encode_fn model query) corpus top_k = sort_hits scored)
    as Hall.
  { unfold ranking. apply take_ge. fold scored.
    rewrite sort_hits_Permutation. unfold scored. rewrite length_score_rows. lia. }
  exists (sort_hits scored). split_and!.
  - rewrite search_nonempty by exact H. by rewrite Hall.
  - rewrite sort_hits_Permutation. apply length_score_rows.
  - apply sort_hits_Permutation.
  - intros i Hi. apply lookup_lt_is_Some_2 in Hi as [row Hrow].
    exists {| corpus_id := i; score := cos_sim (encode_fn model query) row |}.
    split; [|reflexivity]. rewrite sort_hits_Permutation.
    apply list_elem_of_lookup. exists i. unfold scored.
    rewrite score_rows_lookup, Hrow. reflexivity.
Qed.

End SearchClaims.

Lemma search_ranked_witness :
  value_of (search dot (of_string "ab") length_encoder tied_corpus 2) start
  = Return [{| corpus_id := 1; score := 3 |}; {| corpus_id := 0; score := 2 |}]%Q
  ∧ ∃ hits,
      value_of (search dot (of_string "ab") length_encoder tied_corpus 2) start
      = Return hits
      ∧ calls_after (search dot (of_string "ab") length_encoder tied_corpus 2)
          start
        = calls start ++ [EncodeCall (of_string "ab")]
      ∧ length hits = (2 `min` length (tensor_rows tied_corpus))%nat
      ∧ (∃ rest,
           hits ++ rest
           ≡ₚ score_rows dot 0 (encode_fn length_encoder (of_string "ab"))
                (tensor_rows tied_corpus)
           ∧ StronglySorted ranks_before (hits ++ rest))
      ∧ (length hits ≤ 2)%nat
      ∧ non_increasing hits
      ∧ (∀ i j a b, (i < j)%nat → hits !! i = Some a → hits !! j = Some b →
           (score b <= score a)%Q
           ∧ ((score a == score b)%Q → (corpus_id a < corpus_id b)%nat))
      ∧ Forall (λ h, ∃ row, tensor_rows tied_corpus !! corpus_id h = Some row
                            ∧ score h
                              = dot (encode_fn length_encoder (of_string "ab"))
                                  row)
          hits
      ∧ ∀ w', value_of (search dot (of_string "ab") length_encoder tied_corpus 2)
                w'
              = Return hits.
Proof.
  split; [vm_compute; reflexivity|].
  apply (search_ranked dot (of_string "ab") length_encoder tied_corpus 2 start).
  vm_compute. discriminate.
Defined.

Lemma search_top_k_beyond_corpus_witness :
  ∃ hits,
    search dot (of_string "ab") length_encoder tied_corpus default_top_k start
    = (Return hits,
       {| calls := calls start ++ [EncodeCall (of_string "ab")];
          rng := rng start |})
    ∧ length hits = length (tensor_rows tied_corpus)
    ∧ hits ≡ₚ score_rows dot 0 (encode_fn length_encoder (of_string "ab"))
                (tensor_rows tied_corpus)
    ∧ ∀ i, (i < length (tensor_rows tied_corpus))%nat →
           ∃ h, h ∈ hits ∧ corpus_id h = i.
Proof.
  apply (search_top_k_beyond_corpus dot (of_string "ab") length_encoder tied_corpus
           default_top_k start).
  - vm_compute. discriminate.
  - vm_compute. lia.
Defined.

(** * Further properties of the code *)

(** ** [get_summary] beyond the gate *)

Section GetSummaryMore.

Implicit Types (text : str) (pipe : Pipeline) (w : world).

Lemma split_from_whitespace_prefix ws text :
  whitespace_only ws → split_from [] (ws ++ text) = split_from [] text.
Proof.
  induction 1 as [|c ws Hc _ IH]; simpl; [reflexivity|]. by rewrite Hc.
Qed.

Lemma word_count_whitespace_prefix ws text :
  whitespace_only ws → word_count (ws ++ text) = word_count text.
Proof.
  intros H. unfold word_count, split. by rewrite split_from_whitespace_prefix.
Qed.

(** Two characters are needed per word, the last word apart. *)
Lemma split_from_length word s :
  (2 * length (split_from word s)
   ≤ length s + 1 + (match word with [] => 0 | _ => 1 end))%nat.
Proof.
  revert word. induction s as [|c s IH]; intros word; simpl.
  - destruct word; simpl; lia.
  - destruct (isspace c).
    + destruct word; simpl; specialize (IH []); simpl in IH; lia.
    + specialize (IH (c :: word)). simpl in IH. lia.
Qed.

(** X1: [get_summary] handles no failure of the model. On a text of at
    least 50 words, an exception of the pipeline call leaves
    [get_summary] as it is, an empty output list gives [IndexError], a
    first dict without the key [summary_text] gives [KeyError]. *)
Theorem get_summary_model_failure text pipe w :
  50 ≤ word_count text →
  (∀ e, (generate pipe (rng w) (take 1024 text) 150 40 false).1 = Raise e →
        value_of (get_summary text pipe) w = Raise e)
  ∧ ((generate pipe (rng w) (take 1024 text) 150 40 false).1 = Return [] →
     value_of (get_summary text pipe) w = Raise IndexError)
  ∧ (∀ first rest,
       (generate pipe (rng w) (take 1024 text) 150 40 false).1
       = Return (first :: rest) →
       first !! "summary_text" = None →
       value_of (get_summary text pipe) w = Raise KeyError).
Proof.
  intros H. unfold value_of. rewrite (get_summary_long _ _ _ H).
  unfold slice_to. cbv zeta. cbn [fst].
  split_and!.
  - intros e ->. reflexivity.
  - intros ->. reflexivity.
  - intros first rest -> Hkey. cbn. unfold getkey. by rewrite Hkey.
Qed.

Lemma get_summary_model_failure_witness :
  value_of (get_summary fifty_words broken_pipeline) start
  = Raise (Exn "RuntimeError").
Proof.
  apply (get_summary_model_failure fifty_words broken_pipeline start).
  - vm_compute. discriminate.
  - reflexivity.
Defined.

(** X2: the gate of line 99 counts the words of the whole text, the
    slice of line 101 keeps its first 1024 characters. A text of at least
    50 words behind 1024 or more whitespace characters passes the gate,
    and the model is invoked on whitespace alone. *)
Theorem get_summary_gate_before_slice ws text pipe w :
  whitespace_only ws →
  (1024 ≤ length ws)%nat →
  50 ≤ word_count text →
  calls_after (get_summary (ws ++ text) pipe) w
  = calls w ++ [SummarizeCall (take 1024 ws) 150 40 false]
  ∧ word_count (take 1024 ws) = 0.
Proof.
  intros Hws Hlen H. split.
  - unfold calls_after. rewrite get_summary_long
      by (by rewrite word_count_whitespace_prefix).
    cbv zeta. cbn [snd calls]. unfold slice_to.
    by rewrite take_app_le by lia.
  - unfold word_count. rewrite split_whitespace_only; [reflexivity|].
    by apply Forall_take.
Qed.

Lemma get_summary_gate_before_slice_witness :
  calls_after (get_summary (margin ++ fifty_words) echo_pipeline) start
  = calls start ++ [SummarizeCall (take 1024 margin) 150 40 false]
  ∧ word_count (take 1024 margin) = 0.
Proof.
  apply (get_summary_gate_before_slice margin fifty_words echo_pipeline start).
  - apply (bool_decide_unpack _). vm_compute. exact I.
  - vm_compute. lia.
  - vm_compute. discriminate.
Defined.

(** X3: a text of n characters has at most (n + 1) / 2 words, so every
    text of fewer than 99 characters gets the fixed message of line 100
    without a call of the model. *)
Theorem get_summary_under_99_characters text pipe w :
  2 * word_count text ≤ len text + 1
  ∧ (len text < 99 → get_summary text pipe w = (Return too_short, w)).
Proof.
  assert (2 * word_count text ≤ len text + 1) as Hbound.
  { unfold word_count, split, len.
    pose proof (split_from_length [] text) as H. simpl in H. lia. }
  split; [exact Hbound|].
  intros Hlen. unfold get_summary.
  rewrite gate_closed by (right; lia). reflexivity.
Qed.

End GetSummaryMore.

(** ** Styling and set-up *)

Section Styling.

Implicit Types (env : environment) (s : app) (data : list N).

Lemma three_step_induction {A} (P : list A → Prop) :
  P [] → (∀ a, P [a]) → (∀ a b, P [a; b]) →
  (∀ a b c rest, P rest → P (a :: b :: c :: rest)) →
  ∀ l, P l.
Proof.
  intros H0 H1 H2 H3 l.
  assert (P l ∧ (∀ a, P (a :: l)) ∧ (∀ a b, P (a :: b :: l))) as [H _].
  { induction l as [|x l (IH0 & IH1 & IH2)]; [by auto|].
    split_and!; [apply IH1 | intros a; apply IH2 |]. intros a b. by apply H3. }
  exact H.
Qed.

Lemma digit_is_base64_char bits : is_base64_char (digit bits) = true.
Proof.
  unfold digit.
  assert (Forall (λ c, is_base64_char c = true) alphabet) as Hall
    by (apply (bool_decide_unpack _); vm_compute; exact I).
  rewrite Forall_forall in Hall. apply Hall, list_elem_of_In, nth_In.
  change 63%N with (N.ones 6). rewrite N.land_ones.
  assert (bits mod 2 ^ 6 < 64)%N as Hlt by (apply N.mod_lt; discriminate).
  change (length alphabet) with 64%nat. lia.
Qed.

(** X4: [b64encode] writes four characters for every three bytes, the
    last group padded, and every character it writes is a letter, a
    digit, [+], [/] or [=]: the string that line 43 puts between double
    quotes contains no double quote. *)
Theorem b64encode_shape data :
  length (b64encode data) = (4 * ((length data + 2) / 3))%nat
  ∧ Forall (λ c, is_base64_char c = true) (b64encode data)
  ∧ 34%N ∉ b64encode data.
Proof.
  assert (Forall (λ c, is_base64_char c = true) (b64encode data)) as Hchars.
  { induction data as [|a|a b|a b c rest IH] using three_step_induction;
      simpl; repeat constructor; auto using digit_is_base64_char. }
  split_and!; [|exact Hchars|].
  - clear Hchars.
    induction data as [|a|a b|a b c rest IH] using three_step_induction;
      try reflexivity.
    cbn [b64encode length]. rewrite IH.
    replace (S (S (S (length rest))) + 2)%nat
      with (1 * 3 + (length rest + 2))%nat by lia.
    rewrite Nat.div_add_l by lia. lia.
  - intros Hin. rewrite Forall_forall in Hchars.
    apply Hchars in Hin. discriminate.
Qed.

(** X5: [set_bg_from_local], case by case, in any working directory.
    Without the file it writes the warning of line 53 and changes
    nothing else. With the file and an encoding cached for the path, it
    writes the style of line 51 over the cached encoding and changes
    nothing else: the file is not opened, whatever it holds by now. With
    the file, nothing cached, and a read that returns, it writes the
    style over the Base64 encoding of the bytes read and caches that
    encoding under the path. With the file, nothing cached, and a read
    that raises, it raises the same exception, writes nothing and caches
    nothing. *)
Theorem set_bg_from_local_cases dir file_path s :
  (os_path_exists dir file_path = false →
   set_bg_from_local dir file_path s
   = (Return (), set_page (page s ++ [BackgroundWarning file_path]) s))
  ∧ (∀ encoded,
       os_path_exists dir file_path = true →
       base64_cache (cache s) !! file_path = Some encoded →
       set_bg_from_local dir file_path s
       = (Return (), set_page (page s ++ [BackgroundStyle encoded]) s))
  ∧ (∀ data,
       os_path_exists dir file_path = true →
       base64_cache (cache s) !! file_path = None →
       open_read dir file_path = Return data →
       set_bg_from_local dir file_path s
       = (Return (),
          set_page (page s ++ [BackgroundStyle (b64encode data)])
            (set_cache (store_base64 file_path (b64encode data) (cache s)) s))
         ∧ base64_cache (store_base64 file_path (b64encode data) (cache s))
             !! file_path
           = Some (b64encode data))
  ∧ (∀ e,
       os_path_exists dir file_path = true →
       base64_cache (cache s) !! file_path = None →
       open_read dir file_path = Raise e →
       set_bg_from_local dir file_path s = (Raise e, s)).
Proof.
  unfold set_bg_from_local, get_base64_of_bin_file, cached.
  split_and!.
  - by intros ->.
  - intros encoded -> Hc. unfold mbind, App_bind. by rewrite Hc.
  - intros data -> Hc Hread. unfold mbind, App_bind, pure.
    rewrite Hc, Hread. split; [reflexivity|]. apply lookup_insert_eq.
  - intros e -> Hc Hread. unfold mbind, App_bind, pure.
    by rewrite Hc, Hread.
Qed.

Lemma local_css_run env file_name s :
  local_css (working_directory env) file_name s
  = (Return (),
     match assets env !! file_name with
     | Some css => set_page (page s ++ [StyleSheet css]) s
     | None => s
     end).
Proof.
  unfold local_css, working_directory. cbn [os_path_exists open_read].
  destruct (assets env !! file_name) as [css|] eqn:Hfile.
  - rewrite bool_decide_eq_true_2 by eauto. reflexivity.
  - rewrite bool_decide_eq_false_2 by (intros [? ?]; discriminate).
    reflexivity.
Qed.

(** X6: [setup_nltk] raises nothing. Once the set-up has run in this
    process, a call changes nothing at all. On its first run it asks the
    server for exactly the packages whose resource [nltk.data.find] does
    not find, the stop words before the tokenizer: a resource that is
    installed is not requested, each one on its own. With the server
    reachable both resources are installed afterwards and none is
    removed; without it the installed resources are as before. The
    set-up then counts as done either way, and the page, the session,
    the models and the other caches are untouched. *)
Theorem setup_nltk_cases env s :
  ∃ s',
    setup_nltk env s = (Return (), s')
    ∧ (nltk_ready (cache s) = true → s' = s)
    ∧ (nltk_ready (cache s) = false →
       downloads s' = downloads s ++ missing_packages (nltk_data s)
       ∧ nltk_data s'
         = (if online env
            then {[ "corpora/stopwords"; "tokenizers/punkt" ]} ∪ nltk_data s
            else nltk_data s)
       ∧ nltk_ready (cache s') = true)
    ∧ models_cache (cache s') = models_cache (cache s)
    ∧ data_cache (cache s') = data_cache (cache s)
    ∧ base64_cache (cache s') = base64_cache (cache s)
    ∧ page s' = page s
    ∧ widget_keys s' = widget_keys s
    ∧ models_world s' = models_world s
    ∧ session_state s' = session_state s.
Proof.
  unfold setup_nltk, cached.
  destruct (nltk_ready (cache s)) eqn:Hready.
  - exists s. split_and!; done.
  - unfold missing_packages, mbind, App_bind, try_except_app, nltk_find,
      nltk_download.
    assert (resource_of "stopwords" = {[ "corpora/stopwords" ]}) as Rs
      by reflexivity.
    assert (resource_of "punkt" = {[ "tokenizers/punkt" ]}) as Rp
      by reflexivity.
    rewrite !Rs, !Rp.
    destruct (decide ("corpora/stopwords" ∈ nltk_data s)) as [H1|H1];
      destruct (decide ("tokenizers/punkt" ∈ nltk_data s)) as [H2|H2];
      destruct (online env) eqn:Hon;
      cbn [nltk_data set_nltk_data set_downloads];
      rewrite ?decide_True by set_solver;
      rewrite ?decide_False by set_solver;
      rewrite ?decide_True by done;
      (eexists; split; [reflexivity|]);
      cbn [cache set_cache set_nltk_data set_downloads nltk_ready models_cache
             data_cache base64_cache page widget_keys models_world
             session_state downloads nltk_data];
      (split; [discriminate|]);
      (split; [intros _; split_and!;
                 [rewrite <- ?app_assoc, ?app_nil_r; reflexivity
                 | set_solver | reflexivity]|]);
      done.
Qed.

End Styling.

(** ** The script *)

Section Steps.

Context {R : app → app → Prop} `{!Blind R}.

Lemma steps_ret {A} (a : A) : steps R (mret a).
Proof. intros s. apply blind_refl. Qed.

Lemma steps_bind {A B} (m : App A) (k : A → App B) :
  steps R m → (∀ a, steps R (k a)) → steps R (m ≫= k).
Proof.
  intros Hm Hk s. unfold mbind, App_bind.
  specialize (Hm s). destruct (m s) as [[a|e] s1]; simpl in *; [|exact Hm].
  eapply blind_trans; [exact Hm | apply Hk].
Qed.

Lemma steps_bind_at {A B} (m : App A) (k : A → App B) s :
  R s (m s).2 → (∀ a, steps R (k a)) → R s ((m ≫= k) s).2.
Proof.
  intros Hm Hk. unfold mbind, App_bind.
  destruct (m s) as [[a|e] s1]; simpl in *; [|exact Hm].
  eapply blind_trans; [exact Hm | apply Hk].
Qed.

Lemma steps_pure {A} (r : result A) : steps R (pure r).
Proof. intros s. apply blind_refl. Qed.

Lemma steps_put e : steps R (put e).
Proof. intros s. apply blind_page. Qed.

Lemma steps_new_run : steps R new_run.
Proof. intros s. apply blind_keys. Qed.

Lemma steps_button key : steps R (button key).
Proof.
  intros s. unfold button. case_decide; [apply blind_refl|].
  eapply blind_trans; [apply blind_keys | apply blind_page].
Qed.

Lemma steps_get_session : steps R get_session.
Proof. intros s. apply blind_refl. Qed.

Lemma steps_cached {A} stored store (body : App A) :
  steps R body → steps R (cached stored store body).
Proof.
  intros Hbody s. unfold cached.
  destruct (stored (cache s)); [apply blind_refl|].
  specialize (Hbody s). destruct (body s) as [[a|e] s1]; simpl in *;
    [|exact Hbody].
  eapply blind_trans; [exact Hbody | apply blind_cache].
Qed.

Lemma steps_try_except_app {A} (body handler : App A) cls :
  steps R body → steps R handler → steps R (try_except_app body cls handler).
Proof.
  intros Hbody Hhandler s. unfold try_except_app.
  specialize (Hbody s). destruct (body s) as [[a|e] s1]; simpl in *;
    [exact Hbody|].
  case_decide; [|exact Hbody].
  eapply blind_trans; [exact Hbody | apply Hhandler].
Qed.

Lemma steps_for_each {A} (l : list A) (body : A → App unit) :
  (∀ x, steps R (body x)) → steps R (for_each l body).
Proof.
  intros Hbody. induction l as [|x l IH]; simpl.
  - apply steps_ret.
  - apply steps_bind; [apply Hbody | intros _; exact IH].
Qed.

Lemma steps_nltk_find resource : steps R (nltk_find resource).
Proof. intros s. unfold nltk_find. case_decide; apply blind_refl. Qed.

Lemma steps_nltk_download env package : steps R (nltk_download env package).
Proof.
  intros s. unfold nltk_download.
  eapply blind_trans; [apply blind_downloads | apply blind_nltk].
Qed.

Lemma steps_setup_nltk env : steps R (setup_nltk env).
Proof.
  apply steps_cached, steps_bind; [|intros _];
    apply steps_try_except_app;
    auto using steps_nltk_find, steps_nltk_download.
Qed.

Lemma steps_local_css dir file_name : steps R (local_css dir file_name).
Proof.
  unfold local_css. destruct (os_path_exists dir file_name).
  - apply steps_bind; [apply steps_pure | intros css; apply steps_put].
  - apply steps_ret.
Qed.

Lemma steps_get_base64_of_bin_file dir bin_file :
  steps R (get_base64_of_bin_file dir bin_file).
Proof.
  apply steps_cached, steps_bind; [apply steps_pure | intros; apply steps_ret].
Qed.

Lemma steps_set_bg_from_local dir file_path :
  steps R (set_bg_from_local dir file_path).
Proof.
  unfold set_bg_from_local. destruct (os_path_exists dir file_path).
  - apply steps_bind; [apply steps_get_base64_of_bin_file|].
    intros; apply steps_put.
  - apply steps_put.
Qed.

Lemma steps_load_models env : steps R (load_models env).
Proof.
  apply steps_cached, steps_bind; [apply steps_pure | intros a].
  apply steps_bind; [apply steps_pure | intros b; apply steps_ret].
Qed.

Lemma steps_load_data_cached env : steps R (load_data_cached env).
Proof. apply steps_cached, steps_pure. Qed.

(** One hit is rendered in steps of [R] when a call of [get_summary] is
    one. *)
Lemma steps_render_hit ui df pipe hit :
  (summary_button ui (summary_key (corpus_id hit)) = true →
   ∀ c, steps R (backend (get_summary_of c pipe))) →
  steps R (render_hit ui df pipe hit).
Proof.
  intros Hsummary. unfold render_hit.
  apply steps_bind; [apply steps_pure | intros paper_data].
  apply steps_bind; [apply steps_pure | intros title].
  do 4 (apply steps_bind; [apply steps_put | intros _]).
  apply steps_bind; [apply steps_pure | intros abstract].
  apply steps_bind; [apply steps_put | intros _].
  apply steps_bind; [apply steps_button | intros _].
  destruct (summary_button ui (summary_key (corpus_id hit))); [|apply steps_ret].
  apply steps_bind; [apply steps_put | intros _].
  apply steps_bind; [apply steps_pure | intros abstract'].
  apply steps_bind; [by apply Hsummary | intros summary; apply steps_put].
Qed.

(** The part of [dashboard] that shows the hits of the session. *)
Lemma steps_show_hits ui df pipe :
  (∀ hit c, summary_button ui (summary_key (corpus_id hit)) = true →
            steps R (backend (get_summary_of c pipe))) →
  steps R (ss ← get_session;
           match ss_hits ss return App unit with
           | Some (hit :: hits) =>
               put (FoundSuccess (len (hit :: hits)));;
               for_each (hit :: hits) (render_hit ui df pipe)
           | Some [] => put NoResultsWarning
           | None => mret ()
           end).
Proof.
  intros Hsummary. apply steps_bind; [apply steps_get_session | intros ss].
  destruct (ss_hits ss) as [[|hit hits]|];
    [apply steps_put | | apply steps_ret].
  apply steps_bind; [apply steps_put | intros _].
  apply steps_for_each. intros h. apply steps_render_hit. eauto.
Qed.

(** [dashboard] goes in steps of [R] when its two calls of the backend
    do: [search] after a click on the search button, [get_summary] after
    a click on a summary button. *)
Lemma steps_dashboard (cos_sim : list Q → list Q → Q) env ui model pipe df t :
  (search_button ui = true →
   ∀ hits, steps R (backend (search cos_sim (text_area ui) model t default_top_k))
           ∧ steps R (ss ← get_session;
                      put_session {| ss_df := ss_df ss; ss_hits := Some hits |})) →
  (∀ hit c, summary_button ui (summary_key (corpus_id hit)) = true →
            steps R (backend (get_summary_of c pipe))) →
  steps R (dashboard cos_sim env ui model pipe df t).
Proof.
  intros Hsearch Hsummary. unfold dashboard.
  apply steps_bind; [apply steps_pure | intros _].
  do 15 (apply steps_bind; [apply steps_put | intros _]).
  apply steps_bind; [apply steps_get_session | intros ss].
  apply steps_bind; [|intros _].
  { destruct (_ && _); [apply steps_put | apply steps_ret]. }
  apply steps_bind; [|intros _; by apply steps_show_hits].
  destruct (search_button ui); [|apply steps_ret].
  apply steps_bind; [apply steps_put | intros _].
  apply steps_bind; [apply (Hsearch eq_refl []) | intros hits].
  apply (Hsearch eq_refl hits).
Qed.

Lemma steps_main (cos_sim : list Q → list Q → Q) env ui :
  (search_button ui = true →
   ∀ model t hits,
     steps R (backend (search cos_sim (text_area ui) model t default_top_k))
     ∧ steps R (ss ← get_session;
                put_session {| ss_df := ss_df ss; ss_hits := Some hits |})) →
  (∀ hit c pipe, summary_button ui (summary_key (corpus_id hit)) = true →
                 steps R (backend (get_summary_of c pipe))) →
  steps R (main cos_sim env ui).
Proof.
  intros Hsearch Hsummary. unfold main.
  apply steps_bind; [apply steps_new_run | intros _].
  apply steps_bind; [apply steps_setup_nltk | intros _].
  apply steps_bind; [apply steps_local_css | intros _].
  apply steps_bind; [apply steps_set_bg_from_local | intros _].
  apply steps_bind; [apply steps_put | intros _].
  apply steps_bind; [apply steps_load_models | intros [model pipe]].
  apply steps_bind; [apply steps_load_data_cached | intros [df t]].
  intros s. change ((get_session ≫= ?k) s) with (k (session_state s) s).
  apply steps_bind_at.
  { destruct (ss_df (session_state s)); [apply blind_refl | apply blind_df]. }
  intros _. destruct df as [df|], t as [t|]; try apply steps_put.
  apply steps_dashboard; eauto.
Qed.

End Steps.

Section MainRuns.

Variable cos_sim : list Q → list Q → Q.

Implicit Types (env : environment) (ui : interaction) (s : app)
  (model : SentenceTransformer) (pipe : Pipeline) (df : DataFrame)
  (t : Tensor).

Lemma bind_Return {A B} (m : App A) (k : A → App B) s a s' :
  m s = (Return a, s') → (m ≫= k) s = k a s'.
Proof. intros E. unfold mbind, App_bind. by rewrite E. Qed.

Lemma bind_Raise {A B} (m : App A) (k : A → App B) s e s' :
  m s = (Raise e, s') → (m ≫= k) s = (Raise e, s').
Proof. intros E. unfold mbind, App_bind. by rewrite E. Qed.

Lemma bind_put {B} e (k : unit → App B) s :
  (put e ≫= k) s = k () (set_page (page s ++ [e]) s).
Proof. reflexivity. Qed.

Lemma bind_ret {A B} (a : A) (k : A → App B) s : (mret a ≫= k) s = k a s.
Proof. reflexivity. Qed.

Lemma bind_put_page {B} e (k : unit → App B) p s :
  (put e ≫= k) (set_page p s) = k () (set_page (p ++ [e]) s).
Proof. reflexivity. Qed.

Lemma bind_button_page {B} key (k : unit → App B) p s :
  key ∉ widget_keys s →
  (button key ≫= k) (set_page p s)
  = k () (set_page (p ++ [SummaryButton key])
            (set_widget_keys (key :: widget_keys s) s)).
Proof.
  intros Hfree. unfold mbind, App_bind, button. cbn [widget_keys set_page].
  by rewrite decide_False.
Qed.

Lemma bind_button_taken {B} key (k : unit → App B) p s :
  key ∈ widget_keys s →
  (button key ≫= k) (set_page p s) = (Raise DuplicateWidgetID, set_page p s).
Proof.
  intros Htaken. unfold mbind, App_bind, button. cbn [widget_keys set_page].
  by rewrite decide_True.
Qed.

Lemma bind_get_session {B} (k : session → App B) s :
  (get_session ≫= k) s = k (session_state s) s.
Proof. reflexivity. Qed.

Lemma set_page_id s : set_page (page s) s = s.
Proof. by destruct s. Qed.

Lemma set_cache_id s : set_cache (cache s) s = s.
Proof. by destruct s. Qed.

Lemma set_bg_from_local_frame env file_path s :
  ∃ e c,
    set_bg_from_local (working_directory env) file_path s
    = (Return (), set_page (page s ++ [e]) (set_cache c s))
    ∧ is_styling e = true
    ∧ models_cache c = models_cache (cache s)
    ∧ data_cache c = data_cache (cache s).
Proof.
  unfold set_bg_from_local, get_base64_of_bin_file, cached, working_directory.
  cbn [os_path_exists open_read].
  destruct (assets env !! file_path) as [data|].
  - rewrite bool_decide_eq_true_2 by eauto.
    unfold mbind, App_bind. simpl.
    destruct (base64_cache (cache s) !! file_path) as [encoded|].
    + exists (BackgroundStyle encoded), (cache s). by rewrite set_cache_id.
    + eexists (BackgroundStyle (b64encode data)), _. done.
  - rewrite bool_decide_eq_false_2 by (intros [? ?]; discriminate).
    exists (BackgroundWarning file_path), (cache s). by rewrite set_cache_id.
Qed.

Lemma nltk_ensure_run env resource package s :
  ∃ d l, try_except_app (nltk_find resource) LookupError
           (nltk_download env package) s
         = (Return (), set_nltk_data d (set_downloads l s)).
Proof.
  unfold try_except_app, nltk_find, nltk_download.
  destruct (decide (resource ∈ nltk_data s)).
  - exists (nltk_data s), (downloads s). by destruct s.
  - rewrite decide_True by done. by eexists _, _.
Qed.

Lemma setup_nltk_frame env s :
  ∃ d l c,
    setup_nltk env s
    = (Return (), set_cache c (set_nltk_data d (set_downloads l s)))
    ∧ models_cache c = models_cache (cache s)
    ∧ data_cache c = data_cache (cache s).
Proof.
  unfold setup_nltk, cached. destruct (nltk_ready (cache s)).
  - exists (nltk_data s), (downloads s), (cache s). by destruct s.
  - destruct (nltk_ensure_run env "corpora/stopwords" "stopwords" s)
      as (d1 & l1 & E1).
    rewrite (bind_Return _ _ _ _ _ E1).
    destruct (nltk_ensure_run env "tokenizers/punkt" "punkt"
                (set_nltk_data d1 (set_downloads l1 s))) as (d2 & l2 & E2).
    rewrite E2. by eexists d2, l2, _.
Qed.

Lemma local_css_frame env file_name s :
  ∃ sty, local_css (working_directory env) file_name s
         = (Return (), set_page (page s ++ sty) s)
         ∧ Forall (λ e, is_styling e = true) sty.
Proof.
  rewrite local_css_run. destruct (assets env !! file_name) as [css|].
  - exists [StyleSheet css]. split; [reflexivity | by repeat constructor].
  - exists []. rewrite app_nil_r, set_page_id. by split.
Qed.

Lemma load_models_run env s mp :
  models_available env s = Return mp →
  ∃ c, load_models env s = (Return mp, set_cache c s)
       ∧ models_cache c = Some mp
       ∧ data_cache c = data_cache (cache s).
Proof.
  unfold models_available, load_models, cached.
  destruct (models_cache (cache s)) as [v|] eqn:Hc.
  - intros [= ->]. exists (cache s). by rewrite set_cache_id.
  - unfold mbind at 2 3, App_bind, pure.
    destruct (hub_encoder env _) as [m|e]; [|discriminate]. simpl.
    destruct (hub_pipeline env _ _) as [p|e]; [|discriminate]. simpl.
    intros [= <-]. eexists. split; [reflexivity|]. done.
Qed.

Lemma load_data_cached_run env s d :
  data_available env s = Return d →
  ∃ c, load_data_cached env s = (Return d, set_cache c s)
       ∧ data_cache c = Some d
       ∧ models_cache c = models_cache (cache s).
Proof.
  unfold data_available, load_data_cached, cached.
  destruct (data_cache (cache s)) as [v|] eqn:Hc.
  - intros [= ->]. exists (cache s). by rewrite set_cache_id.
  - unfold pure. intros ->. eexists. split; [reflexivity|]. done.
Qed.

(** Lines 108-121: with the models and the data at hand, [main] reaches
    line 119 in a state that differs from the one it started in by the
    styling elements and the spinner on the page, by the caches, and by
    the key [df] of the session. *)
Lemma main_loaded env ui s model pipe d :
  models_available env s = Return (model, pipe) →
  data_available env s = Return d →
  ∃ s0 styling,
    main cos_sim env ui s
    = match d return App unit with
      | (Some df, Some t) => dashboard cos_sim env ui model pipe df t
      | _ => put CriticalFilesError
      end s0
    ∧ models_world s0 = models_world s
    ∧ hits_of s0 = hits_of s
    ∧ page s0 = page s ++ styling ++ [LoadingSpinner]
    ∧ Forall (λ e, is_styling e = true) styling
    ∧ data_cache (cache s0) = Some d
    ∧ models_cache (cache s0) = Some (model, pipe)
    ∧ widget_keys s0 = [].
Proof.
  intros Hmodels Hdata. unfold main.
  rewrite (bind_Return new_run _ s () (set_widget_keys [] s)) by reflexivity.
  destruct (setup_nltk_frame env (set_widget_keys [] s))
    as (d1 & l1 & c1 & E1 & Hm1 & Hd1).
  rewrite (bind_Return _ _ _ _ _ E1).
  set (s1 := set_cache c1 (set_nltk_data d1 (set_downloads l1
                                               (set_widget_keys [] s)))).
  destruct (local_css_frame env "style.css" s1) as (sty & E2 & Hsty).
  rewrite (bind_Return _ _ _ _ _ E2).
  set (s2 := set_page (page s1 ++ sty) s1).
  destruct (set_bg_from_local_frame env "background.jpg" s2)
    as (e & c3 & E3 & He & Hm3 & Hd3).
  rewrite (bind_Return _ _ _ _ _ E3), bind_put.
  set (s4 := set_page _ (set_page _ (set_cache c3 s2))).
  destruct (load_models_run env s4 (model, pipe)) as (c5 & E5 & Hm5 & Hd5).
  { unfold models_available in *. simpl. rewrite Hm3. simpl. by rewrite Hm1. }
  rewrite (bind_Return _ _ _ _ _ E5).
  destruct (load_data_cached_run env (set_cache c5 s4) d) as (c6 & E6 & Hd6 & Hm6).
  { unfold data_available in *. simpl. rewrite Hd5. simpl. rewrite Hd3. simpl.
    by rewrite Hd1. }
  rewrite (bind_Return _ _ _ _ _ E6). destruct d as [odf ot].
  rewrite bind_get_session.
  set (s6 := set_cache c6 (set_cache c5 s4)).
  assert (page s6 = page s ++ (sty ++ [e]) ++ [LoadingSpinner]) as Hpage
    by (simpl; by rewrite <- !app_assoc).
  assert (Forall (λ e, is_styling e = true) (sty ++ [e])) as Hstyling
    by (apply Forall_app; split; [exact Hsty | by repeat constructor]).
  destruct (ss_df (session_state s6)) as [old|] eqn:Hold.
  - exists s6, (sty ++ [e]). split; [reflexivity|].
    split_and!; try done. simpl. by rewrite Hm6.
  - eexists (set_session _ s6), (sty ++ [e]). split; [reflexivity|].
    split_and!; try done. simpl. by rewrite Hm6.
Qed.

End MainRuns.

Section MainClaims.

Variable cos_sim : list Q → list Q → Q.

Implicit Types (env : environment) (ui : interaction) (s : app)
  (model : SentenceTransformer) (pipe : Pipeline) (df : DataFrame)
  (t : Tensor).

Lemma keeps_hits_blind : Blind keeps_hits.
Proof. split; unfold keeps_hits, hits_of; intros; simpl; congruence. Qed.

Lemma log_grows_blind P : Blind (log_grows P).
Proof.
  split; unfold log_grows, calls_of.
  - intros s. exists []. by rewrite app_nil_r.
  - intros s1 s2 s3 (x1 & E1 & H1) (x2 & E2 & H2). exists (x1 ++ x2).
    rewrite E2, E1, app_assoc. split; [done | by apply Forall_app].
  - intros s p. exists []. by rewrite app_nil_r.
  - intros s keys. exists []. by rewrite app_nil_r.
  - intros s c. exists []. by rewrite app_nil_r.
  - intros s d. exists []. by rewrite app_nil_r.
  - intros s packages. exists []. by rewrite app_nil_r.
  - intros s df. exists []. by rewrite app_nil_r.
Qed.

Lemma and_blind (R1 R2 : app → app → Prop) :
  Blind R1 → Blind R2 → Blind (λ s s', R1 s s' ∧ R2 s s').
Proof.
  intros B1 B2. split.
  - intros s. split; apply blind_refl.
  - intros s1 s2 s3 [? ?] [? ?]. split; eapply blind_trans; eassumption.
  - intros s p. split; apply blind_page.
  - intros s keys. split; apply blind_keys.
  - intros s c. split; apply blind_cache.
  - intros s d. split; apply blind_nltk.
  - intros s packages. split; apply blind_downloads.
  - intros s df. split; apply blind_df.
Qed.

Lemma get_summary_log text pipe w :
  ∃ extra, calls (get_summary text pipe w).2 = calls w ++ extra
           ∧ Forall (λ c, is_summarize_call c = true) extra.
Proof.
  destruct (not_ text || (len (split text) <? 50)) eqn:Hgate.
  - exists []. unfold get_summary. rewrite Hgate, app_nil_r. done.
  - apply gate_open_iff in Hgate. rewrite (get_summary_long _ _ _ Hgate).
    eexists. split; [reflexivity | by repeat constructor].
Qed.

Lemma get_summary_of_log c pipe w :
  ∃ extra, calls (get_summary_of c pipe w).2 = calls w ++ extra
           ∧ Forall (λ c, is_summarize_call c = true) extra.
Proof.
  destruct c as [text|]; [apply get_summary_log|].
  exists []. by rewrite app_nil_r.
Qed.

Lemma search_log query model t top_k w :
  ∃ extra, calls (search cos_sim query model t top_k w).2 = calls w ++ extra
           ∧ Forall (λ c, is_encode_call c = true) extra.
Proof.
  destruct query as [|c query].
  - exists []. by rewrite app_nil_r.
  - rewrite search_nonempty by done.
    eexists. split; [reflexivity | by repeat constructor].
Qed.

Lemma steps_backend_keeps_hits {A} (m : M A) : steps keeps_hits (backend m).
Proof. intros s. unfold backend. by destruct (m (models_world s)). Qed.

Lemma steps_backend_log {A} P (m : M A) :
  (∀ w, ∃ extra, calls (m w).2 = calls w ++ extra
                 ∧ Forall (λ c, P c = true) extra) →
  steps (log_grows P) (backend m).
Proof.
  intros Hm s. unfold backend, log_grows, calls_of.
  specialize (Hm (models_world s)). by destruct (m (models_world s)).
Qed.

Lemma steps_store_hits_log P hits :
  steps (log_grows P)
    (ss ← get_session; put_session {| ss_df := ss_df ss; ss_hits := Some hits |}).
Proof. intros s. exists []. by rewrite app_nil_r. Qed.

(** X7: without a click on the search button, a run of [main] leaves the
    hits of the session as they are and does not invoke the encoding
    model: every call it adds to the log is a call of the summarizer.
    This holds on every path, the failing ones included. *)
Theorem main_without_search_click env ui s :
  search_button ui = false →
  hits_of (main cos_sim env ui s).2 = hits_of s
  ∧ log_grows is_summarize_call s (main cos_sim env ui s).2.
Proof.
  intros Hbutton.
  pose proof (and_blind _ _ keeps_hits_blind (log_grows_blind is_summarize_call))
    as HB.
  apply (steps_main (Blind0 := HB)).
  - intros Hclick. congruence.
  - intros hit c pipe _ s1. split.
    + apply steps_backend_keeps_hits.
    + apply steps_backend_log, get_summary_of_log.
Qed.

(** X8: without a click on a summary button, a run of [main] does not
    invoke the summarization model: every call it adds to the log is a
    call of the encoder. This holds on every path. *)
Theorem main_without_summary_click env ui s :
  (∀ key, summary_button ui key = false) →
  log_grows is_encode_call s (main cos_sim env ui s).2.
Proof.
  intros Hbutton.
  apply (steps_main (Blind0 := log_grows_blind is_encode_call)).
  - intros _ model t hits. split.
    + apply steps_backend_log, search_log.
    + apply steps_store_hits_log.
  - intros hit c pipe Hclick. rewrite Hbutton in Hclick. discriminate.
Qed.

End MainClaims.

Lemma main_without_search_click_witness :
  hits_of (main dot (studio good_disk) (click_summary (summary_key 1))
             (with_hits two_hits fresh)).2
  = hits_of (with_hits two_hits fresh)
  ∧ log_grows is_summarize_call (with_hits two_hits fresh)
      (main dot (studio good_disk) (click_summary (summary_key 1))
         (with_hits two_hits fresh)).2.
Proof.
  apply (main_without_search_click dot (studio good_disk)
           (click_summary (summary_key 1)) (with_hits two_hits fresh)).
  reflexivity.
Defined.

Lemma main_without_summary_click_witness :
  log_grows is_encode_call fresh
    (main dot (studio good_disk) (click_search (of_string "ab")) fresh).2.
Proof.
  apply (main_without_summary_click dot (studio good_disk)
           (click_search (of_string "ab")) fresh).
  reflexivity.
Defined.

Section MainPages.

Variable cos_sim : list Q → list Q → Q.

Implicit Types (env : environment) (ui : interaction) (s : app)
  (model : SentenceTransformer) (pipe : Pipeline) (df : DataFrame)
  (t : Tensor).

(** Lines 119-121 with an artifact missing from the loaded pair. *)
Lemma main_no_data env ui s mp d :
  models_available env s = Return mp →
  data_available env s = Return d →
  d.1 = None ∨ d.2 = None →
  ∃ s' styling,
    main cos_sim env ui s = (Return (), s')
    ∧ page s' = page s ++ styling ++ [LoadingSpinner; CriticalFilesError]
    ∧ Forall (λ e, is_styling e = true) styling
    ∧ models_world s' = models_world s
    ∧ hits_of s' = hits_of s
    ∧ data_cache (cache s') = Some d.
Proof.
  intros Hmodels Hdata Hnone. destruct mp as [model pipe].
  destruct (main_loaded cos_sim env ui s model pipe d Hmodels Hdata)
    as (s0 & styling & E & Hw & Hh & Hp & Hsty & Hd & _ & _).
  exists (set_page (page s0 ++ [CriticalFilesError]) s0), styling.
  split.
  { rewrite E. destruct d as [[df|] [t|]]; try reflexivity.
    simpl in Hnone. by destruct Hnone. }
  split_and!; try done.
  simpl. rewrite Hp. by rewrite <- !app_assoc.
Qed.



(** Lines 123-146 of [dashboard], when the image of line 124 shows. *)
Lemma dashboard_frame env ui model pipe df t s0 :
  open_image env "Frame 1.png" = Return () →
  ∃ rest : App unit,
    dashboard cos_sim env ui model pipe df t s0
    = rest (set_page (page s0 ++ page_frame df) s0)
    ∧ rest
      = (ss ← get_session;
         (if negb (search_button ui) && negb (bool_decide (is_Some (ss_hits ss)))
          then put EnterQueryInfo
          else mret () : App unit);;
         (if search_button ui
          then
            put SearchingSpinner;;
            hits ← backend (search cos_sim (text_area ui) model t default_top_k);
            ss ← get_session;
            put_session {| ss_df := ss_df ss; ss_hits := Some hits |}
          else mret () : App unit);;
         ss ← get_session;
         match ss_hits ss return App unit with
         | Some (hit :: hits) =>
             put (FoundSuccess (len (hit :: hits)));;
             for_each (hit :: hits) (render_hit ui df pipe)
         | Some [] => put NoResultsWarning
         | None => mret ()
         end).
Proof.
  intros Himg. eexists. split; [|reflexivity].
  transitivity (dashboard cos_sim env ui model pipe df t (set_page (page s0) s0));
    [by rewrite set_page_id|].
  generalize (page s0). intros p.
  unfold dashboard.
  rewrite (bind_Return _ _ _ () (set_page p s0))
    by (unfold pure; by rewrite Himg).
  rewrite !bind_put_page. f_equal.
  unfold page_frame. by rewrite <- !app_assoc.
Qed.

End MainPages.

Section MainResults.

Variable cos_sim : list Q → list Q → Q.

Implicit Types (env : environment) (ui : interaction) (s : app)
  (model : SentenceTransformer) (pipe : Pipeline) (df : DataFrame)
  (t : Tensor).




End MainResults.

(** ** Showing the hits *)

Section ShowHits.

Variable cos_sim : list Q → list Q → Q.

Implicit Types (env : environment) (ui : interaction) (s : app)
  (model : SentenceTransformer) (pipe : Pipeline) (df : DataFrame)
  (t : Tensor) (hit : SearchHit) (hits : list SearchHit).

Lemma position_elem_of label labels :
  label ∈ labels → is_Some (position label labels).
Proof.
  induction 1 as [label labels | label l labels _ IH]; simpl.
  - rewrite decide_True by done. eauto.
  - destruct (decide (l = label)); [eauto|].
    destruct IH as [i ->]. simpl. eauto.
Qed.

Lemma of_string_inj a b : of_string a = of_string b → a = b.
Proof.
  unfold of_string. intros H.
  rewrite <- (String.string_of_list_ascii_of_string a),
          <- (String.string_of_list_ascii_of_string b).
  f_equal. revert H.
  generalize (String.list_ascii_of_string a) (String.list_ascii_of_string b).
  induction l as [|x l IH]; intros [|y l']; simpl; try done.
  intros [= Hxy Hl]. f_equal; [|by apply IH].
  rewrite <- (Ascii.ascii_N_embedding x), <- (Ascii.ascii_N_embedding y).
  by rewrite Hxy.
Qed.

Lemma summary_key_inj i j : summary_key i = summary_key j → i = j.
Proof.
  unfold summary_key. intros H. apply app_inv_head in H.
  apply of_string_inj in H. by apply (inj pretty) in H.
Qed.

Lemma render_hit_card_at ui df pipe hit p s :
  summary_button ui (summary_key (corpus_id hit)) = false →
  (corpus_id hit < length (df_rows df))%nat →
  "Title" ∈ df_columns df →
  "Abstract" ∈ df_columns df →
  summary_key (corpus_id hit) ∉ widget_keys s →
  render_hit ui df pipe hit (set_page p s)
  = (Return (),
     set_page (p ++ card_of df hit)
       (set_widget_keys (summary_key (corpus_id hit) :: widget_keys s) s)).
Proof.
  intros Hbutton Hrange Htitle Habstract Hfree.
  apply lookup_lt_is_Some_2 in Hrange as [row Hrow].
  apply position_elem_of in Htitle as [i Hi].
  apply position_elem_of in Habstract as [j Hj].
  unfold render_hit, card_of, iloc, series_getitem. rewrite Hrow.
  erewrite (bind_Return (pure _)) by reflexivity. cbn [index].
  rewrite Hi, Hj.
  erewrite (bind_Return (pure _)) by reflexivity.
  rewrite !bind_put_page.
  erewrite (bind_Return (pure _)) by reflexivity.
  rewrite !bind_put_page, bind_button_page by done. rewrite Hbutton.
  unfold mret, App_ret. f_equal. f_equal.
  unfold paper_card. by rewrite <- !app_assoc.
Qed.

Lemma render_hit_card ui df pipe hit s :
  summary_button ui (summary_key (corpus_id hit)) = false →
  (corpus_id hit < length (df_rows df))%nat →
  "Title" ∈ df_columns df →
  "Abstract" ∈ df_columns df →
  summary_key (corpus_id hit) ∉ widget_keys s →
  render_hit ui df pipe hit s
  = (Return (),
     set_page (page s ++ card_of df hit)
       (set_widget_keys (summary_key (corpus_id hit) :: widget_keys s) s)).
Proof.
  intros. rewrite <- (set_page_id s) at 1. by apply render_hit_card_at.
Qed.

Lemma render_hit_beyond ui df pipe hit s :
  (length (df_rows df) ≤ corpus_id hit)%nat →
  render_hit ui df pipe hit s = (Raise IndexError, s).
Proof.
  intros Hrange. apply lookup_ge_None_2 in Hrange.
  unfold render_hit, iloc. rewrite Hrange. reflexivity.
Qed.

(** Line 175 on a key that is taken: the card is cut short before its
    button. *)
Lemma render_hit_repeated_key ui df pipe hit s :
  (corpus_id hit < length (df_rows df))%nat →
  "Title" ∈ df_columns df →
  "Abstract" ∈ df_columns df →
  summary_key (corpus_id hit) ∈ widget_keys s →
  (render_hit ui df pipe hit s).1 = Raise DuplicateWidgetID.
Proof.
  intros Hrange Htitle Habstract Htaken.
  apply lookup_lt_is_Some_2 in Hrange as [row Hrow].
  apply position_elem_of in Htitle as [i Hi].
  apply position_elem_of in Habstract as [j Hj].
  rewrite <- (set_page_id s) at 1.
  unfold render_hit, iloc, series_getitem. rewrite Hrow.
  erewrite (bind_Return (pure _)) by reflexivity. cbn [index].
  rewrite Hi, Hj.
  erewrite (bind_Return (pure _)) by reflexivity.
  rewrite !bind_put_page.
  erewrite (bind_Return (pure _)) by reflexivity.
  rewrite !bind_put_page, bind_button_taken by done. reflexivity.
Qed.

Lemma for_each_cards ui df pipe hits s :
  (∀ key, summary_button ui key = false) →
  Forall (λ hit, (corpus_id hit < length (df_rows df))%nat) hits →
  "Title" ∈ df_columns df →
  "Abstract" ∈ df_columns df →
  NoDup (corpus_id <$> hits) →
  Forall (λ hit, summary_key (corpus_id hit) ∉ widget_keys s) hits →
  ∃ keys,
    for_each hits (render_hit ui df pipe) s
    = (Return (),
       set_page (page s ++ concat (card_of df <$> hits)) (set_widget_keys keys s)).
Proof.
  intros Hbutton Hrange Htitle Habstract. revert s.
  induction Hrange as [|hit hits Hhit _ IH]; intros s Hnodup Hfree; simpl.
  - exists (widget_keys s). rewrite app_nil_r. by destruct s.
  - apply NoDup_cons in Hnodup as [Hnew Hnodup].
    apply Forall_cons in Hfree as [Hfree Hrest].
    erewrite bind_Return by (by apply render_hit_card).
    edestruct IH as [keys ->]; [exact Hnodup | | ].
    + cbn [widget_keys set_page set_widget_keys].
      rewrite Forall_forall in Hrest. apply Forall_forall. intros h Hh.
      apply not_elem_of_cons. split; [|by apply Hrest].
      intros Hkey. apply summary_key_inj in Hkey. apply Hnew.
      rewrite <- Hkey. by apply list_elem_of_fmap_2.
    + exists keys. unfold set_page, set_widget_keys. simpl.
      by rewrite <- app_assoc.
Qed.

Lemma for_each_beyond ui df pipe hits s :
  (∀ key, summary_button ui key = false) →
  "Title" ∈ df_columns df →
  "Abstract" ∈ df_columns df →
  Exists (λ hit, (length (df_rows df) ≤ corpus_id hit)%nat) hits →
  (for_each hits (render_hit ui df pipe) s).1 = Raise IndexError
  ∨ (¬ (NoDup (corpus_id <$> hits)
        ∧ Forall (λ hit, summary_key (corpus_id hit) ∉ widget_keys s) hits)
     ∧ (for_each hits (render_hit ui df pipe) s).1 = Raise DuplicateWidgetID).
Proof.
  intros Hbutton Htitle Habstract Hbeyond. revert s.
  induction hits as [|hit hits IH]; intros s; [by inversion Hbeyond|].
  simpl. destruct (decide (corpus_id hit < length (df_rows df))%nat) as [Hin|Hout].
  - destruct (decide (summary_key (corpus_id hit) ∈ widget_keys s))
      as [Htaken|Hfree].
    + right. split.
      * intros [_ Hall]. by apply Forall_cons in Hall as [Hhit _].
      * pose proof (render_hit_repeated_key ui df pipe hit s Hin Htitle
                      Habstract Htaken) as E.
        unfold mbind, App_bind.
        destruct (render_hit ui df pipe hit s) as [[?|e] s1]; simpl in *;
          congruence.
    + erewrite bind_Return by (by apply render_hit_card).
      edestruct IH as [E | [Hdup E]]; [| left; exact E | right].
      { inversion Hbeyond; subst; [lia | done]. }
      split; [|exact E].
      intros [Hnodup Hall]. apply Hdup.
      apply NoDup_cons in Hnodup as [Hnew Hnodup].
      apply Forall_cons in Hall as [_ Hrest].
      split; [exact Hnodup|].
      cbn [widget_keys set_page set_widget_keys].
      rewrite Forall_forall in Hrest. apply Forall_forall. intros h Hh.
      apply not_elem_of_cons. split; [|by apply Hrest].
      intros Hkey. apply summary_key_inj in Hkey. apply Hnew.
      rewrite <- Hkey. by apply list_elem_of_fmap_2.
  - left. erewrite bind_Raise by (apply render_hit_beyond; lia). reflexivity.
Qed.



(** X16: the keys line 174 gives the summary buttons tell the rows
    apart: hits of pairwise different rows get pairwise different
    keys. *)
Theorem summary_keys_distinct hits :
  NoDup (corpus_id <$> hits) →
  NoDup (summary_key <$> (corpus_id <$> hits)).
Proof.
  intros H. apply NoDup_fmap_2; [|exact H].
  intros i j. apply summary_key_inj.
Qed.

End ShowHits.

(** ** Failures and requests *)

Section MainRequests.

Variable cos_sim : list Q → list Q → Q.

Implicit Types (env : environment) (ui : interaction) (s : app)
  (model : SentenceTransformer) (pipe : Pipeline) (df : DataFrame)
  (t : Tensor) (hit : SearchHit) (hits : list SearchHit).

Lemma load_models_fail env s e :
  models_available env s = Raise e → load_models env s = (Raise e, s).
Proof.
  unfold models_available, load_models, cached.
  destruct (models_cache (cache s)) as [v|]; [discriminate|].
  unfold mbind at 2 3, App_bind, pure.
  destruct (hub_encoder env _) as [m|e1]; simpl; [|by intros [= ->]].
  destruct (hub_pipeline env _ _) as [p|e2]; simpl; [discriminate|].
  by intros [= ->].
Qed.


Lemma log_grows_nothing s s' : log_grows (λ _, false) s s' → calls_of s' = calls_of s.
Proof.
  intros (extra & -> & Hextra). destruct extra as [|c extra].
  - by rewrite app_nil_r.
  - by inversion Hextra.
Qed.


Lemma render_hit_click_at ui df pipe hit p s row title abstract r w' :
  summary_button ui (summary_key (corpus_id hit)) = true →
  iloc df (corpus_id hit) = Return row →
  series_getitem row "Title" = Return title →
  series_getitem row "Abstract" = Return abstract →
  get_summary_of abstract pipe (models_world s) = (r, w') →
  summary_key (corpus_id hit) ∉ widget_keys s →
  render_hit ui df pipe hit (set_page p s)
  = (match r with Return _ => Return () | Raise e => Raise e end,
     set_page (p ++ paper_card row title abstract hit ++ [SummarySpinner]
                 ++ match r with
                    | Return summary => [SummaryInfo summary]
                    | Raise _ => []
                    end)
       (set_world w'
          (set_widget_keys (summary_key (corpus_id hit) :: widget_keys s) s))).
Proof.
  intros Hbutton Hrow Htitle Habstract Hsummary Hfree.
  unfold render_hit. rewrite Hrow.
  erewrite (bind_Return (pure _)) by reflexivity. rewrite Htitle.
  erewrite (bind_Return (pure _)) by reflexivity.
  rewrite !bind_put_page. rewrite Habstract.
  erewrite (bind_Return (pure _)) by reflexivity.
  rewrite !bind_put_page, bind_button_page by done.
  rewrite Hbutton, bind_put_page.
  erewrite (bind_Return (pure _)) by reflexivity.
  unfold paper_card. destruct r as [summary|e].
  - erewrite (bind_Return (backend _)); cycle 1.
    { unfold backend. cbn [models_world set_page set_widget_keys].
      rewrite Hsummary.
      reflexivity. }
    unfold put, set_world, set_page, set_widget_keys.
    cbn [page models_world session_state widget_keys nltk_data downloads cache].
    by rewrite <- !app_assoc.
  - erewrite (bind_Raise (backend _)); cycle 1.
    { unfold backend. cbn [models_world set_page set_widget_keys].
      rewrite Hsummary.
      reflexivity. }
    unfold set_world, set_page, set_widget_keys.
    cbn [page models_world session_state widget_keys nltk_data downloads cache].
    by rewrite <- !app_assoc, app_nil_r.
Qed.


End MainRequests.

(** ** The properties of the script at concrete runs *)

Lemma set_bg_from_local_cases_witness :
  b64encode [104; 105]%N = of_string "aGk="
  ∧ set_bg_from_local (working_directory gallery) "background.jpg" fresh
    = (Return (),
       set_page (page fresh ++ [BackgroundStyle (b64encode [104; 105]%N)])
         (set_cache (store_base64 "background.jpg" (b64encode [104; 105]%N)
                       (cache fresh)) fresh))
  ∧ set_bg_from_local locked_directory "background.jpg" fresh
    = (Raise (Exn "PermissionError"), fresh).
Proof.
  destruct (set_bg_from_local_cases (working_directory gallery)
              "background.jpg" fresh) as (_ & _ & Hread & _).
  destruct (set_bg_from_local_cases locked_directory "background.jpg" fresh)
    as (_ & _ & _ & Hlocked).
  split_and!.
  - vm_compute. reflexivity.
  - apply (Hread [104; 105]%N); vm_compute; reflexivity.
  - apply Hlocked; reflexivity.
Defined.

Lemma setup_nltk_cases_witness :
  downloads (setup_nltk (studio good_disk) stopwords_installed).2 = ["punkt"].
Proof.
  destruct (setup_nltk_cases (studio good_disk) stopwords_installed)
    as (s' & E & _ & Hfirst & _).
  rewrite E. destruct (Hfirst eq_refl) as (Hdownloads & _).
  cbn [snd]. rewrite Hdownloads. vm_compute. reflexivity.
Defined.








Lemma summary_keys_distinct_witness :
  NoDup (summary_key <$> (corpus_id <$> three_hits)).
Proof.
  apply (summary_keys_distinct three_hits).
  apply (bool_decide_unpack _). vm_compute. exact I.
Defined.



